(** * plane-cool: nearby aircraft ranked by distance and bearing

    A shallow embedding of [main.py].  A finite Python float is a real
    number here: rounding is not modelled, but the range is, so that
    [math.pow] raises [OverflowError] and a sum becomes [float("inf")] when
    the exact result exceeds the largest float.  Exceptions are explicit:
    every fallible operation returns a [result]. *)

From Stdlib Require Import Reals Lra Lia ZArith List String Ascii Bool.
From Stdlib Require Import Sorted Permutation.
Import ListNotations.

Open Scope R_scope.

(** ** Exceptions and the error monad *)

Inductive exn_class : Set :=
| ValueError
| TypeError
| ZeroDivisionError
| OverflowError
| IndexError
| Exception.

Record pyexn : Set := mk_exn { exn_class_of : exn_class; exn_msg : string }.

Inductive result (A : Type) : Type :=
| Ok (a : A)
| Raise (e : pyexn).

Arguments Ok {A} a.
Arguments Raise {A} e.

Definition bind {A B : Type} (m : result A) (k : A -> result B) : result B :=
  match m with
  | Ok a => k a
  | Raise e => Raise e
  end.

Notation "x <- m ;; k" := (bind m (fun x => k))
  (at level 61, m at next level, right associativity).
Notation "' p <- m ;; k" := (bind m (fun x => let p := x in k))
  (at level 61, p pattern, m at next level, right associativity).

(** ** Floats *)

(** A float that is either finite or [float("inf")], the one non-finite
    value that the program creates (as a literal, and as an overflowing
    sum of squares). *)
Inductive pyfloat : Type :=
| Finite (r : R)
| Inf.

(** The largest finite float, [sys.float_info.max].  An exact result
    beyond it overflows; the half unit in the last place by which rounding
    moves that threshold is not modelled. *)
Definition float_max : R := IZR ((2 ^ 53 - 1) * 2 ^ 971).

(** [a < b] on floats, the comparison [list.sort] uses on keys. *)
Definition float_lt (a b : pyfloat) : bool :=
  match a, b with
  | Finite x, Finite y => if Rlt_dec x y then true else false
  | Finite _, Inf => true
  | Inf, _ => false
  end.

Definition float_eqb (a b : pyfloat) : bool :=
  match a, b with
  | Finite x, Finite y => if Req_dec_T x y then true else false
  | Inf, Inf => true
  | _, _ => false
  end.

(** [a <= b] as a proposition, for stating sortedness. *)
Definition float_le (a b : pyfloat) : Prop :=
  match a, b with
  | Finite x, Finite y => x <= y
  | _, Inf => True
  | Inf, Finite _ => False
  end.

(** [x / 1000] on a float. *)
Definition float_div1000 (x : pyfloat) : pyfloat :=
  match x with
  | Finite r => Finite (r / 1000)
  | Inf => Inf
  end.

(** [a + b] on floats that are not negative, as the squares of [distance]
    are: the sum, or [inf] when it exceeds the largest float.  Float
    addition does not raise. *)
Definition float_add (a b : pyfloat) : pyfloat :=
  match a, b with
  | Finite x, Finite y =>
      if Rlt_dec float_max (x + y) then Inf else Finite (x + y)
  | _, _ => Inf
  end.

(** ** The [math] module and float operators *)

Module math.

Definition radians (x : R) : R := x * (PI / 180).

Definition degrees (x : R) : R := x * (180 / PI).

(** [math.pow x n] for the whole exponents the program uses: it raises
    [OverflowError] when the result exceeds the largest float. *)
Definition pow (x : R) (n : nat) : result R :=
  if Rlt_dec float_max (Rabs (x ^ n))
  then Raise (mk_exn OverflowError "math range error")
  else Ok (x ^ n).

(** [math.sqrt] raises [ValueError] on a negative argument. *)
Definition sqrt (x : R) : result R :=
  if Rlt_dec x 0 then Raise (mk_exn ValueError "math domain error")
  else Ok (R_sqrt.sqrt x).

(** [math.sqrt] on a float that may be [inf]: the root of [inf] is [inf]. *)
Definition sqrt_float (x : pyfloat) : result pyfloat :=
  match x with
  | Finite r => s <- sqrt r ;; Ok (Finite s)
  | Inf => Ok Inf
  end.

(** [math.atan2 y x]: the angle of the point [(x, y)], in (-pi, pi]. *)
Definition atan2 (y x : R) : R :=
  if Rlt_dec 0 x then atan (y / x)
  else if Rlt_dec x 0 then
    if Rle_dec 0 y then atan (y / x) + PI else atan (y / x) - PI
  else if Rlt_dec 0 y then PI / 2
  else if Rlt_dec y 0 then - (PI / 2)
  else 0.

End math.

(** [a / b] on floats raises [ZeroDivisionError] when [b] is zero. *)
Definition truediv (a b : R) : result R :=
  if Req_dec_T b 0 then Raise (mk_exn ZeroDivisionError "float division by zero")
  else Ok (a / b).

(** [a % b] on floats: [a - b * floor (a / b)], the sign of the divisor. *)
Definition floor (x : R) : Z := Int_part x.

Definition float_mod (a b : R) : result R :=
  if Req_dec_T b 0 then Raise (mk_exn ZeroDivisionError "float modulo")
  else Ok (a - b * IZR (floor (a / b))).

(** ** The numeric core *)

(** [math.pow(a - b, 2)].  A difference beyond the largest float is an
    infinity, whose square is [inf] without an exception; otherwise the
    square is computed by [math.pow], which raises when it overflows. *)
Definition square_of_difference (a b : R) : result pyfloat :=
  if Rlt_dec float_max (Rabs (a - b)) then Ok Inf
  else sq <- math.pow (a - b) 2 ;; Ok (Finite sq).

(** The sum of the three squares can overflow to [inf], of which
    [math.sqrt] is [inf]. *)
Definition distance (x1 y1 z1 x2 y2 z2 : R) : result pyfloat :=
  dx2 <- square_of_difference x2 x1 ;;
  dy2 <- square_of_difference y2 y1 ;;
  dz2 <- square_of_difference z2 z1 ;;
  math.sqrt_float (float_add (float_add dx2 dy2) dz2).

Module Geo.

(** The inner function [N] of [pointToCartesian]. *)
Definition N (phi : R) : result R :=
  sin2 <- math.pow (sin phi) 2 ;;
  s <- math.sqrt (1 - 0.006694379990197619 * sin2) ;;
  truediv 6378137 s.

Definition pointToCartesian (longitude latitude altitude : R)
  : result (R * R * R) :=
  let longitude := math.radians longitude in
  let latitude := math.radians latitude in
  let altitude_m := altitude * 0.3048 in
  n <- N latitude ;;
  let x := (n + altitude_m) * cos latitude * cos longitude in
  n <- N latitude ;;
  let y := (n + altitude_m) * cos latitude * sin longitude in
  n <- N latitude ;;
  let z := (0.9933056200098024 * n + altitude_m) * sin latitude in
  Ok (x, y, z).

Definition calculate_heading_to_aircraft
  (user_lat user_lon aircraft_lat aircraft_lon : R) : result R :=
  let user_lat_rad := math.radians user_lat in
  let user_lon_rad := math.radians user_lon in
  let aircraft_lat_rad := math.radians aircraft_lat in
  let aircraft_lon_rad := math.radians aircraft_lon in
  let dlon := aircraft_lon_rad - user_lon_rad in
  let y := sin dlon * cos aircraft_lat_rad in
  let x := cos user_lat_rad * sin aircraft_lat_rad
           - sin user_lat_rad * cos aircraft_lat_rad * cos dlon in
  let bearing_rad := math.atan2 y x in
  let bearing_deg := math.degrees bearing_rad in
  float_mod (bearing_deg + 360) 360.

End Geo.

Import Geo.

(** ** The formulas of the specification, for comparison with the code *)

Module Spec.

(** WGS84 geodetic-to-ECEF, as the specification writes it. *)
Definition a : R := 6378137.0.
Definition e2 : R := 0.006694379990197619.

Definition N_phi (phi : R) : R := a / R_sqrt.sqrt (1 - e2 * (sin phi)²).

Definition toCartesian (longitude_deg latitude_deg altitude_ft : R)
  : R * R * R :=
  let lambda := longitude_deg * PI / 180 in
  let phi := latitude_deg * PI / 180 in
  let h := altitude_ft * 0.3048 in
  ((N_phi phi + h) * cos phi * cos lambda,
   (N_phi phi + h) * cos phi * sin lambda,
   (0.9933056200098024 * N_phi phi + h) * sin phi).

(** [x % m] of the specification's normalisation, for a non-zero [m]. *)
Definition rmod (x m : R) : R := x - m * IZR (Int_part (x / m)).

Definition bearingTo (fromLat fromLon toLat toLon : R) : R :=
  let fromLat_rad := fromLat * PI / 180 in
  let fromLon_rad := fromLon * PI / 180 in
  let toLat_rad := toLat * PI / 180 in
  let toLon_rad := toLon * PI / 180 in
  let dlon := toLon_rad - fromLon_rad in
  let y := sin dlon * cos toLat_rad in
  let x := cos fromLat_rad * sin toLat_rad
           - sin fromLat_rad * cos toLat_rad * cos dlon in
  let deg := math.atan2 y x * 180 / PI in
  rmod (rmod deg 360 + 360) 360.

End Spec.

(** ** Python values that the program moves around *)

(** A flight object of the FlightRadar24 client.  An attribute the object
    does not have is [None] here; an attribute it has is a string for the
    four names and a finite float for the four numbers.  [flight_str] is
    what [str(flight)] gives. *)
Record Flight : Type := mk_Flight {
  flight_str : string;
  origin_airport_name : option string;
  destination_airport_name : option string;
  airline_name : option string;
  aircraft_model : option string;
  altitude : option R;
  latitude : option R;
  longitude : option R;
  heading : option R
}.

(** A number in the dict of [get_flight_data]: the float of an attribute,
    or the int literal [0] that [getattr] falls back to. *)
Inductive pynum : Type :=
| IntZero
| FloatNum (r : R).

(** The number as the float that arithmetic and [math] functions see. *)
Definition as_float (n : pynum) : R :=
  match n with
  | IntZero => 0
  | FloatNum r => r
  end.

(** [getattr(obj, name, default)]. *)
Definition getattr {A : Type} (attr : option A) (default : A) : A :=
  match attr with
  | Some v => v
  | None => default
  end.

(** [getattr(obj, name, 0)] for a numeric attribute. *)
Definition getattr_num (attr : option R) : pynum :=
  getattr (option_map FloatNum attr) IntZero.

(** The dict that [get_flight_data] builds; all eight keys are always
    present, so a lookup by key is a field access. *)
Module flight_data.
Record t : Type := mk {
  source : string;
  destination : string;
  airline : string;
  aircraft_type : string;
  altitude : pynum;
  latitude : pynum;
  longitude : pynum;
  heading : pynum
}.
End flight_data.

Inductive pyval : Type :=
| VNone
| VFloat (x : R)
| VStr (s : string)
| VDict (d : flight_data.t).

(** An element of [aircraft_data]: a 3-tuple whose first item is a float. *)
Definition entry : Type := pyfloat * pyval * pyval.

Definition item0 (e : entry) : pyfloat := fst (fst e).
Definition item1 (e : entry) : pyval := snd (fst e).
Definition item2 (e : entry) : pyval := snd e.

(** [list.sort(key=...)]: ascending by key, comparing keys with [<] only,
    and stable.  Insertion of each element before the first element that
    is not strictly smaller gives exactly that order. *)
Section ListSort.
Context {A : Type} (key : A -> pyfloat).

Fixpoint insert_sorted (x : A) (l : list A) : list A :=
  match l with
  | [] => [x]
  | y :: l' =>
      if float_lt (key y) (key x) then y :: insert_sorted x l'
      else x :: y :: l'
  end.

Fixpoint list_sort (l : list A) : list A :=
  match l with
  | [] => []
  | x :: l' => insert_sorted x (list_sort l')
  end.
End ListSort.

(** ** External collaborators *)

(** The FlightRadar24 client.  [set_flight_details] mutates the flight; here
    it returns the flight as it is after the call. *)
Record FlightRadar24API : Type := mk_api {
  Bounds : Type;
  Details : Type;
  get_bounds_by_point : R -> R -> R -> result Bounds;
  get_flights : Bounds -> result (list Flight);
  get_flight_details : Flight -> result Details;
  set_flight_details : Flight -> Details -> result Flight
}.

(** What the program uses of the Python runtime on floats and strings:
    [float(s)] on a string ([None] when it raises [ValueError]), [str(x)]
    of a float, and the format specifications [.2f] and [.0f].  Only
    finite floats are parsed here: the strings that [float] turns into
    [inf] or [nan] have no counterpart. *)
Record PyRuntime : Type := mk_py {
  float_of_string : string -> option R;
  str_of_float : R -> string;
  format_2f : pyfloat -> string;
  format_0f : R -> string
}.

(** [str(n)] of a number of the dict, as an f-string renders it. *)
Definition str_of_num (py : PyRuntime) (n : pynum) : string :=
  match n with
  | IntZero => "0"
  | FloatNum r => str_of_float py r
  end.

(** A request: the query arguments in order; [args_get] returns the first
    value of a key. *)
Definition Request : Type := list (string * string).

Fixpoint args_get (args : Request) (k : string) : option string :=
  match args with
  | [] => None
  | (k', v) :: rest => if String.eqb k' k then Some v else args_get rest k
  end.

(** A response: body, status and headers. *)
Definition Response : Type := string * Z * list (string * string).

Definition nl : string := String "010"%char EmptyString.

Definition text_plain : list (string * string) := [("Content-Type", "text/plain")]%string.

Definition prompt : string :=
  ("Here is information about the aircraft near to me. Based on the following question, tell me the airline, type (for example, truncate to 777-300 ER from 777-336(ER)), departing and arriving CITIES of the SINGLE aircraft which most matches. Tell me the airport's country only if it is NOT in Western Europe or North America. You don't need to give a justification for your answer. Don't include redundant information. Here is the prompt:" ++ nl)%string.

Definition invalid_params_msg : string :=
  "Invalid longitude, latitude, or altitude values".

Definition not_found_msg : string :=
  "No aircraft found within 10km of your location.".

(** [sep.join(items)] raises [TypeError] on an item that is not a string. *)
Fixpoint str_join (sep : string) (items : list pyval) : result string :=
  match items with
  | [] => Ok EmptyString
  | VStr s :: rest =>
      match rest with
      | [] => Ok s
      | _ => tl <- str_join sep rest ;; Ok (s ++ sep ++ tl)%string
      end
  | _ :: _ => Raise (mk_exn TypeError "sequence item: expected str instance")
  end.

(** ** The service *)

Section Service.
Context (py : PyRuntime) (api : FlightRadar24API).

Definition get_flight_data (flight : Flight) : option flight_data.t :=
  match (flight_details <- get_flight_details api flight ;;
         set_flight_details api flight flight_details) with
  | Ok flight =>
      Some (flight_data.mk
              (getattr (origin_airport_name flight) "Unknown"%string)
              (getattr (destination_airport_name flight) "Unknown"%string)
              (getattr (airline_name flight) "Unknown"%string)
              (getattr (aircraft_model flight) "Unknown"%string)
              (getattr_num (altitude flight))
              (getattr_num (latitude flight))
              (getattr_num (longitude flight))
              (getattr_num (heading flight)))
  | Raise _ => None
  end.

(** The [for flight in flights] loop; [aircraft_data] is the list that
    the loop appends to. *)
Fixpoint for_flights (user : R * R * R) (latitude longitude : R)
  (flights : list Flight) (aircraft_data : list entry)
  : result (list entry) :=
  match flights with
  | [] => Ok aircraft_data
  | flight :: rest =>
      match get_flight_data flight with
      | None =>
          for_flights user latitude longitude rest
            (aircraft_data ++
               [(Inf, VNone,
                 VStr ("Error processing flight " ++ flight_str flight)%string)])
      | Some flight_data =>
          let '(user_x, user_y, user_z) := user in
          '(aircraft_x, aircraft_y, aircraft_z) <-
            pointToCartesian (as_float (flight_data.longitude flight_data))
              (as_float (flight_data.latitude flight_data))
              (as_float (flight_data.altitude flight_data)) ;;
          dist <- distance user_x user_y user_z
                    aircraft_x aircraft_y aircraft_z ;;
          heading_to_aircraft <-
            calculate_heading_to_aircraft latitude longitude
              (as_float (flight_data.latitude flight_data))
              (as_float (flight_data.longitude flight_data)) ;;
          for_flights user latitude longitude rest
            (aircraft_data ++
               [(dist, VDict flight_data, VFloat heading_to_aircraft)])
      end
  end.

Definition get_flights_with_distances
  (latitude longitude altitude radius_m : R) : result (list entry) :=
  match (user <- pointToCartesian longitude latitude altitude ;;
         bounds <- get_bounds_by_point api latitude longitude radius_m ;;
         flights <- get_flights api bounds ;;
         for_flights user latitude longitude flights []) with
  | Ok aircraft_data => Ok aircraft_data
  | Raise e =>
      Raise (mk_exn Exception
               ("Error fetching flight data: " ++ exn_msg e)%string)
  end.

(** [float(v)] where [v] is a query value or [None]. *)
Definition py_float (v : option string) : result R :=
  match v with
  | None => Raise (mk_exn TypeError "float() argument must be a string or a real number")
  | Some s =>
      match float_of_string py s with
      | Some r => Ok r
      | None => Raise (mk_exn ValueError "could not convert string to float")
      end
  end.

Definition validate_location_params (request : Request)
  : result (R * R * R) :=
  match (longitude <- py_float (args_get request "longitude") ;;
         latitude <- py_float (args_get request "latitude") ;;
         altitude <- match args_get request "altitude" with
                     | None => Ok 0
                     | Some s => py_float (Some s)
                     end ;;
         Ok (longitude, latitude, altitude)) with
  | Ok v => Ok v
  | Raise e =>
      match exn_class_of e with
      | TypeError | ValueError => Raise (mk_exn ValueError invalid_params_msg)
      | _ => Raise e
      end
  end.

(** The two [except] clauses shared by both handlers. *)
Definition handle (r : result Response) : Response :=
  match r with
  | Ok resp => resp
  | Raise e =>
      match exn_class_of e with
      | ValueError => (("Error: " ++ exn_msg e)%string, 400%Z, [])
      | _ => (("Error: " ++ exn_msg e)%string, 500%Z, [])
      end
  end.

(** Lines 143-146: fetch, then sort by the first item. *)
Definition ranked_aircraft (latitude longitude altitude : R)
  : result (list entry) :=
  aircraft_data <- get_flights_with_distances latitude longitude altitude 20000 ;;
  Ok (list_sort item0 aircraft_data).

(** One iteration of the formatting loop: the value appended to
    [output_strings]. *)
Definition output_string (e : entry) : result pyval :=
  let '(dist, flight_data, heading_to_aircraft) := e in
  match flight_data with
  | VNone => Ok heading_to_aircraft
  | VDict fd =>
      let dist_km := float_div1000 dist in
      match heading_to_aircraft with
      | VFloat h =>
          Ok (VStr ("Aircraft: " ++ flight_data.aircraft_type fd
                    ++ " | Airline: " ++ flight_data.airline fd
                    ++ " | From: " ++ flight_data.source fd
                    ++ " | To: " ++ flight_data.destination fd
                    ++ " | Altitude: " ++ str_of_num py (flight_data.altitude fd)
                    ++ "ft | Heading: " ++ str_of_num py (flight_data.heading fd)
                    ++ "° | Distance: " ++ format_2f py dist_km
                    ++ "km | Heading to Aircraft From My Location: "
                    ++ format_0f py h ++ "°")%string)
      | VStr _ => Raise (mk_exn ValueError "Unknown format code 'f' for object of type 'str'")
      | _ => Raise (mk_exn TypeError "unsupported format string")
      end
  | _ => Raise (mk_exn TypeError "indices must be integers")
  end.

Fixpoint output_strings_of (aircraft_data : list entry) : result (list pyval) :=
  match aircraft_data with
  | [] => Ok []
  | e :: rest =>
      s <- output_string e ;;
      strs <- output_strings_of rest ;;
      Ok (s :: strs)
  end.

Definition get_aircraft (request : Request) : Response :=
  handle
    ('(longitude, latitude, altitude) <- validate_location_params request ;;
     aircraft_data <- ranked_aircraft latitude longitude altitude ;;
     output_strings <- output_strings_of aircraft_data ;;
     combined_output <- str_join nl output_strings ;;
     Ok ((combined_output ++ prompt)%string, 200%Z, text_plain)).

(** The comprehension of [get_closest_aircraft]. *)
Fixpoint valid_aircraft_of (aircraft_data : list entry)
  : list (pyfloat * pyval) :=
  match aircraft_data with
  | [] => []
  | (dist, flight_data, _) :: rest =>
      match flight_data with
      | VNone => valid_aircraft_of rest
      | _ => (dist, flight_data) :: valid_aircraft_of rest
      end
  end.

Definition closest_sentence (closest_flight : pyval) : result string :=
  match closest_flight with
  | VDict fd =>
      Ok (flight_data.airline fd ++ " " ++ flight_data.aircraft_type fd
          ++ " departing from " ++ flight_data.source fd
          ++ " to " ++ flight_data.destination fd ++ ".")%string
  | _ => Raise (mk_exn TypeError "indices must be integers")
  end.

Definition get_closest_aircraft (request : Request) : Response :=
  handle
    ('(longitude, latitude, altitude) <- validate_location_params request ;;
     aircraft_data <- get_flights_with_distances latitude longitude altitude 10000 ;;
     let valid_aircraft := valid_aircraft_of aircraft_data in
     match valid_aircraft with
     | [] => Ok (not_found_msg, 200%Z, text_plain)
     | _ :: _ =>
         match list_sort fst valid_aircraft with
         | (closest_dist, closest_flight) :: _ =>
             sentence <- closest_sentence closest_flight ;;
             Ok (sentence, 200%Z, text_plain)
         | [] => Raise (mk_exn IndexError "list index out of range")
         end
     end).

End Service.

(** ** Vocabulary of the statements *)

(** The two outcomes of lines 62-64 for one flight. *)
Definition details_fail (api : FlightRadar24API) (flight : Flight) : Prop :=
  (exists e, get_flight_details api flight = Raise e)
  \/ (exists d e, get_flight_details api flight = Ok d
                  /\ set_flight_details api flight d = Raise e).

Definition details_succeed (api : FlightRadar24API) (flight flight' : Flight)
  : Prop :=
  exists d, get_flight_details api flight = Ok d
            /\ set_flight_details api flight d = Ok flight'.

(** The per-item error record of line 100. *)
Definition error_record (flight : Flight) : entry :=
  (Inf, VNone, VStr ("Error processing flight " ++ flight_str flight)%string).

(** The data model's view of an entry: the observation payload is the dict
    in the second item, the error message is the string in the third. *)
Definition observation (e : entry) : option flight_data.t :=
  match item1 e with
  | VDict d => Some d
  | _ => None
  end.

Definition error_message (e : entry) : option string :=
  match item2 e with
  | VStr s => Some s
  | _ => None
  end.

Definition populated {A : Type} (o : option A) : Prop := o <> None.

Definition is_resolved (e : entry) : bool :=
  match item1 e with
  | VNone => false
  | _ => true
  end.

(** Ascending order of keys, and of the distances of entries. *)
Definition le_by {A : Type} (key : A -> pyfloat) (a b : A) : Prop :=
  float_le (key a) (key b).

Definition by_distance : entry -> entry -> Prop := le_by item0.

(** The tuple layout that the overview of the specification names:
    (distance, bearing, aircraft-data). *)
Definition layout_distance_bearing_data (e : entry) : Prop :=
  exists b d, item1 e = VFloat b /\ item2 e = VDict d.

(** The tuple layout of line 119: (distance, aircraft-data, bearing). *)
Definition layout_distance_data_bearing (e : entry) : Prop :=
  exists d b, item1 e = VDict d /\ item2 e = VFloat b.

(** One iteration of the loop, lines 96-119, as a function of the flight:
    the entry that is appended, or the exception that ends the loop. *)
Definition flight_entry (api : FlightRadar24API) (user : R * R * R)
  (latitude longitude : R) (flight : Flight) : result entry :=
  match get_flight_data api flight with
  | None => Ok (error_record flight)
  | Some fd =>
      let '(user_x, user_y, user_z) := user in
      '(aircraft_x, aircraft_y, aircraft_z) <-
        pointToCartesian (as_float (flight_data.longitude fd))
          (as_float (flight_data.latitude fd))
          (as_float (flight_data.altitude fd)) ;;
      dist <- distance user_x user_y user_z aircraft_x aircraft_y aircraft_z ;;
      h <- calculate_heading_to_aircraft latitude longitude
             (as_float (flight_data.latitude fd))
             (as_float (flight_data.longitude fd)) ;;
      Ok (dist, VDict fd, VFloat h)
  end.

Fixpoint entries_of (api : FlightRadar24API) (user : R * R * R)
  (latitude longitude : R) (flights : list Flight) : result (list entry) :=
  match flights with
  | [] => Ok []
  | flight :: rest =>
      e <- flight_entry api user latitude longitude flight ;;
      es <- entries_of api user latitude longitude rest ;;
      Ok (e :: es)
  end.

(** What one iteration of the loop appends for [flight], seen from the
    user's location. *)
Definition ranked_as (api : FlightRadar24API) (latitude longitude altitude : R)
  (flight : Flight) (e : entry) : Prop :=
  exists user,
    pointToCartesian longitude latitude altitude = Ok user
    /\ flight_entry api user latitude longitude flight = Ok e.

(** The distance computation of lines 105-112 returns for the dict [fd]:
    no square overflows. *)
Definition distance_returns (latitude longitude altitude : R)
  (fd : flight_data.t) : Prop :=
  exists user_x user_y user_z aircraft_x aircraft_y aircraft_z dist,
    pointToCartesian longitude latitude altitude = Ok (user_x, user_y, user_z)
    /\ pointToCartesian (as_float (flight_data.longitude fd))
         (as_float (flight_data.latitude fd))
         (as_float (flight_data.altitude fd))
       = Ok (aircraft_x, aircraft_y, aircraft_z)
    /\ distance user_x user_y user_z aircraft_x aircraft_y aircraft_z = Ok dist.

(** The distance computation of lines 105-112 raises for the dict [fd]:
    a square overflows. *)
Definition distance_overflows (latitude longitude altitude : R)
  (fd : flight_data.t) : Prop :=
  exists user_x user_y user_z aircraft_x aircraft_y aircraft_z,
    pointToCartesian longitude latitude altitude = Ok (user_x, user_y, user_z)
    /\ pointToCartesian (as_float (flight_data.longitude fd))
         (as_float (flight_data.latitude fd))
         (as_float (flight_data.altitude fd))
       = Ok (aircraft_x, aircraft_y, aircraft_z)
    /\ distance user_x user_y user_z aircraft_x aircraft_y aircraft_z
       = Raise (mk_exn OverflowError "math range error").

(** No distance computation of a resolved flight of the list overflows. *)
Definition no_overflow (api : FlightRadar24API)
  (latitude longitude altitude : R) (flights : list Flight) : Prop :=
  Forall (fun flight =>
            forall fd, get_flight_data api flight = Some fd ->
                       distance_returns latitude longitude altitude fd)
    flights.

(** The exception of an overflowing square, and what
    [get_flights_with_distances] makes of it. *)
Definition overflow_exn : pyexn := mk_exn OverflowError "math range error".

Definition wrapped (e : pyexn) : pyexn :=
  mk_exn Exception ("Error fetching flight data: " ++ exn_msg e)%string.

Definition is_finite (x : pyfloat) : bool :=
  match x with
  | Finite _ => true
  | Inf => false
  end.

(** The invariant of a RankedObservation in the data model. *)
Definition ranked_observation_inv (e : entry) : Prop :=
  ((populated (observation e) /\ ~ populated (error_message e))
   \/ (~ populated (observation e) /\ populated (error_message e)))
  /\ (populated (error_message e) -> item0 e = Inf).

(** A query value that [float] rejects: absent, or not a number. *)
Definition rejected (py : PyRuntime) (v : option string) : Prop :=
  match v with
  | None => True
  | Some s => float_of_string py s = None
  end.

Definition invalid_location_params (py : PyRuntime) (request : Request) : Prop :=
  rejected py (args_get request "longitude")
  \/ rejected py (args_get request "latitude")
  \/ (exists s, args_get request "altitude" = Some s
                /\ float_of_string py s = None).

(** The gateway with the flights whose details cannot be fetched removed
    from the answer of [get_flights]. *)
Definition resolves (api : FlightRadar24API) (flight : Flight) : bool :=
  match get_flight_data api flight with
  | Some _ => true
  | None => false
  end.

Definition without_failed (api : FlightRadar24API) : FlightRadar24API :=
  mk_api (Bounds api) (Details api)
    (get_bounds_by_point api)
    (fun bounds => flights <- get_flights api bounds ;;
                   Ok (filter (resolves api) flights))
    (get_flight_details api)
    (set_flight_details api).

(** ** A small concrete world, for examples *)

Module Demo.

Definition py : PyRuntime :=
  mk_py (fun s => if String.eqb s "0" then Some 0
                  else if String.eqb s "51.5" then Some 51.5
                  else if String.eqb s "-0.1" then Some (-0.1)
                  else None)
        (fun _ => "?"%string) (fun _ => "?"%string) (fun _ => "?"%string).

Definition heathrow_777 : Flight :=
  mk_Flight "<BA117>" (Some "London Heathrow"%string) None
    (Some "British Airways"%string) (Some "Boeing 777-336(ER)"%string)
    (Some 35000) (Some 51.5) (Some (-0.1)) None.

Definition unresolved : Flight :=
  mk_Flight "<N/A>" None None None None None None None None.

(** Details can be fetched for every flight but [unresolved]. *)
Definition details (flight : Flight) : result unit :=
  if String.eqb (flight_str flight) "<N/A>"
  then Raise (mk_exn Exception "no details")
  else Ok tt.

Definition api_with (flights : list Flight) : FlightRadar24API :=
  mk_api unit unit (fun _ _ _ => Ok tt) (fun _ => Ok flights)
    details (fun flight _ => Ok flight).

Definition api : FlightRadar24API := api_with [unresolved; heathrow_777].

Definition request : Request :=
  [("longitude", "-0.1"); ("latitude", "51.5")]%string.

Definition bad_request : Request :=
  [("longitude", "abc"); ("latitude", "51.5")]%string.

End Demo.

(** ** Vocabulary of the further properties *)

Definition status (r : Response) : Z := snd (fst r).

Definition body (r : Response) : string := fst (fst r).

(** [m] is the first element of [l] with the least key: everything before
    it is strictly larger, nothing after it is smaller. *)
Definition first_minimum {A : Type} (key : A -> pyfloat) (m : A) (l : list A)
  : Prop :=
  exists pre post,
    l = pre ++ m :: post
    /\ Forall (fun e => float_lt (key m) (key e) = true) pre
    /\ Forall (fun e => float_le (key m) (key e)) post.

(** The gateway fails with exception [e]: in the bounds query or in the
    list query. *)
Definition gateway_raises (api : FlightRadar24API)
  (latitude longitude radius_m : R) (e : pyexn) : Prop :=
  get_bounds_by_point api latitude longitude radius_m = Raise e
  \/ exists bounds,
       get_bounds_by_point api latitude longitude radius_m = Ok bounds
       /\ get_flights api bounds = Raise e.

(** The gateway answers with the list [flights]. *)
Definition gateway_answers (api : FlightRadar24API)
  (latitude longitude radius_m : R) (flights : list Flight) : Prop :=
  exists bounds,
    get_bounds_by_point api latitude longitude radius_m = Ok bounds
    /\ get_flights api bounds = Ok flights.

(** The two shapes of the tuples that the loop appends. *)
Definition well_shaped (e : entry) : Prop :=
  (exists flight, e = error_record flight)
  \/ (exists dist fd h,
        e = (dist, VDict fd, VFloat h)
        /\ float_le (Finite 0) dist /\ 0 <= h < 360).

(** The pair that the comprehension of [/closest] keeps of an entry. *)
Definition dist_and_data (e : entry) : pyfloat * pyval := (item0 e, item1 e).

(** A flight that has a name but no position. *)
Module Lost.

Definition flight : Flight :=
  mk_Flight "<LOST>" None None (Some "Nowhere Air"%string) None
    None None None (Some 270).

End Lost.

(** A flight whose altitude is a very large float. *)
Module High.

Definition flight : Flight :=
  mk_Flight "<HIGH>" None None None None (Some 1e300) None None None.

End High.

(** A gateway whose list query raises a [ValueError]. *)
Module Outage.

Definition api : FlightRadar24API :=
  mk_api unit unit (fun _ _ _ => Ok tt)
    (fun _ => Raise (mk_exn ValueError "bad gateway"))
    (fun _ => Ok tt) (fun flight _ => Ok flight).

End Outage.

(** ** Facts about the numeric core *)

Lemma float_max_bounds : 1.797e308 < float_max < 1.798e308.
Proof.
  unfold float_max.
  let z := eval vm_compute in ((2 ^ 53 - 1) * 2 ^ 971)%Z in
  change ((2 ^ 53 - 1) * 2 ^ 971)%Z with z.
  lra.
Qed.

Lemma sin_pow2_bounds (x : R) : 0 <= sin x ^ 2 <= 1.
Proof.
  pose proof (SIN_bound x) as [Hlo Hhi].
  split; nra.
Qed.

(** A square that does not exceed the largest float is returned. *)
Lemma pow2_value (x : R) : x ^ 2 <= float_max -> math.pow x 2 = Ok (x ^ 2).
Proof.
  intros Hx. unfold math.pow.
  destruct (Rlt_dec float_max (Rabs (x ^ 2))) as [Hover | _]; [| reflexivity].
  rewrite Rabs_pos_eq in Hover by apply pow2_ge_0. lra.
Qed.

(** A square that exceeds it raises. *)
Lemma pow2_overflow (x : R) :
  float_max < x ^ 2 -> math.pow x 2 = Raise overflow_exn.
Proof.
  intros Hx. unfold math.pow.
  destruct (Rlt_dec float_max (Rabs (x ^ 2))) as [_ | Hfits]; [reflexivity |].
  rewrite Rabs_pos_eq in Hfits by apply pow2_ge_0. contradiction.
Qed.

Lemma pow2_cases (x : R) :
  (x ^ 2 <= float_max /\ math.pow x 2 = Ok (x ^ 2))
  \/ (float_max < x ^ 2 /\ math.pow x 2 = Raise overflow_exn).
Proof.
  destruct (Rle_dec (x ^ 2) float_max) as [Hfits | Hover].
  - left. split; [exact Hfits | apply pow2_value; exact Hfits].
  - right. apply Rnot_le_lt in Hover.
    split; [exact Hover | apply pow2_overflow; exact Hover].
Qed.

Lemma curvature_radicand_pos (phi : R) :
  0 < 1 - 0.006694379990197619 * sin phi ^ 2.
Proof.
  pose proof (sin_pow2_bounds phi) as [H0 H1]. nra.
Qed.

Lemma N_ok (phi : R) :
  N phi = Ok (6378137 / R_sqrt.sqrt (1 - 0.006694379990197619 * sin phi ^ 2)).
Proof.
  unfold N. rewrite pow2_value.
  2:{ pose proof (sin_pow2_bounds phi) as [_ H1].
      pose proof float_max_bounds as [Hlo _]. lra. }
  cbn [bind]. unfold math.sqrt.
  pose proof (curvature_radicand_pos phi) as Hpos.
  destruct (Rlt_dec _ 0) as [Hneg | _]; [lra |].
  cbn [bind]. unfold truediv.
  destruct (Req_dec_T _ 0) as [Hz | _]; [| reflexivity].
  apply sqrt_lt_R0 in Hpos. lra.
Qed.

(** [pointToCartesian] never raises; its value, written as the code does. *)
Lemma pointToCartesian_value (longitude latitude altitude : R) :
  pointToCartesian longitude latitude altitude =
  let lam := math.radians longitude in
  let phi := math.radians latitude in
  let n := 6378137 / R_sqrt.sqrt (1 - 0.006694379990197619 * sin phi ^ 2) in
  Ok ((n + altitude * 0.3048) * cos phi * cos lam,
      (n + altitude * 0.3048) * cos phi * sin lam,
      (0.9933056200098024 * n + altitude * 0.3048) * sin phi).
Proof.
  unfold pointToCartesian. rewrite N_ok. reflexivity.
Qed.

Lemma pointToCartesian_total (longitude latitude altitude : R) :
  exists x y z, pointToCartesian longitude latitude altitude = Ok (x, y, z).
Proof.
  rewrite pointToCartesian_value. cbv zeta. eauto.
Qed.

Lemma sqrt_float_nonneg (x : pyfloat) :
  float_le (Finite 0) x ->
  exists d, math.sqrt_float x = Ok d /\ float_le (Finite 0) d.
Proof.
  destruct x as [r |]; cbn [float_le math.sqrt_float]; intros Hr.
  - unfold math.sqrt. destruct (Rlt_dec r 0) as [Hneg | _]; [lra |].
    cbn [bind]. eexists. split; [reflexivity |]. cbn. apply sqrt_pos.
  - exists Inf. split; [reflexivity | exact I].
Qed.

Lemma float_add_nonneg (a b : pyfloat) :
  float_le (Finite 0) a -> float_le (Finite 0) b ->
  float_le (Finite 0) (float_add a b).
Proof.
  destruct a as [x |], b as [y |]; cbn; try easy.
  intros Hx Hy. destruct (Rlt_dec float_max (x + y)); cbn; [exact I | lra].
Qed.

Lemma Rabs_le_of_square (d : R) : d ^ 2 <= float_max -> Rabs d <= float_max.
Proof.
  intros Hsq. pose proof float_max_bounds as [Hmax _].
  pose proof (Rabs_pos d) as Hpos.
  assert (Habs : Rabs d * Rabs d = d ^ 2).
  { rewrite <- Rabs_mult, Rabs_pos_eq by nra. ring. }
  destruct (Rle_dec (Rabs d) 1) as [Hsmall | Hbig]; [lra | nra].
Qed.

(** Every outcome of one square. *)
Lemma square_of_difference_cases (a b : R) :
  (float_max < Rabs (a - b) /\ square_of_difference a b = Ok Inf)
  \/ ((a - b) ^ 2 <= float_max
      /\ square_of_difference a b = Ok (Finite ((a - b) ^ 2)))
  \/ (Rabs (a - b) <= float_max /\ float_max < (a - b) ^ 2
      /\ square_of_difference a b = Raise overflow_exn).
Proof.
  unfold square_of_difference.
  destruct (Rlt_dec float_max (Rabs (a - b))) as [Hinf | Hfin].
  - left. split; [exact Hinf | reflexivity].
  - right. apply Rnot_lt_le in Hfin.
    destruct (pow2_cases (a - b)) as [[Hfits ->] | [Hover ->]].
    + left. split; [exact Hfits | reflexivity].
    + right. repeat split; assumption.
Qed.

Lemma square_of_difference_fits (a b : R) :
  (a - b) ^ 2 <= float_max ->
  square_of_difference a b = Ok (Finite ((a - b) ^ 2)).
Proof.
  intros Hfits. pose proof (Rabs_le_of_square _ Hfits) as Habs.
  destruct (square_of_difference_cases a b) as [[Hinf _] | [[_ H] | (_ & Hover & _)]];
    [lra | exact H | lra].
Qed.

Lemma square_of_difference_overflow (a b : R) :
  Rabs (a - b) <= float_max -> float_max < (a - b) ^ 2 ->
  square_of_difference a b = Raise overflow_exn.
Proof.
  intros Habs Hover.
  destruct (square_of_difference_cases a b) as [[Hinf _] | [[Hfits _] | (_ & _ & H)]];
    [lra | lra | exact H].
Qed.

Lemma square_of_difference_nonneg (a b : R) (s : pyfloat) :
  square_of_difference a b = Ok s -> float_le (Finite 0) s.
Proof.
  destruct (square_of_difference_cases a b)
    as [[_ ->] | [[_ ->] | (_ & _ & ->)]]; intros H; try discriminate H;
    injection H as <-; cbn; [exact I | apply pow2_ge_0].
Qed.

Lemma square_of_difference_raise (a b : R) (e : pyexn) :
  square_of_difference a b = Raise e -> e = overflow_exn.
Proof.
  destruct (square_of_difference_cases a b)
    as [[_ ->] | [[_ ->] | (_ & _ & ->)]]; intros H; try discriminate H.
  injection H as <-. reflexivity.
Qed.

(** [distance] raises only [OverflowError]; when it returns, the value is
    not negative. *)
Lemma distance_cases (x1 y1 z1 x2 y2 z2 : R) :
  distance x1 y1 z1 x2 y2 z2 = Raise overflow_exn
  \/ exists d, distance x1 y1 z1 x2 y2 z2 = Ok d /\ float_le (Finite 0) d.
Proof.
  unfold distance.
  destruct (square_of_difference x2 x1) as [sx | e] eqn:Hx; cbn [bind].
  2:{ left. rewrite (square_of_difference_raise _ _ _ Hx). reflexivity. }
  destruct (square_of_difference y2 y1) as [sy | e] eqn:Hy; cbn [bind].
  2:{ left. rewrite (square_of_difference_raise _ _ _ Hy). reflexivity. }
  destruct (square_of_difference z2 z1) as [sz | e] eqn:Hz; cbn [bind].
  2:{ left. rewrite (square_of_difference_raise _ _ _ Hz). reflexivity. }
  right. apply sqrt_float_nonneg.
  repeat apply float_add_nonneg; eapply square_of_difference_nonneg; eassumption.
Qed.

(** When the sum of the squares fits, the distance is its root. *)
Lemma distance_finite (x1 y1 z1 x2 y2 z2 : R) :
  (x2 - x1) ^ 2 + (y2 - y1) ^ 2 + (z2 - z1) ^ 2 <= float_max ->
  distance x1 y1 z1 x2 y2 z2
  = Ok (Finite (sqrt ((x2 - x1) ^ 2 + (y2 - y1) ^ 2 + (z2 - z1) ^ 2))).
Proof.
  intros Hsum.
  pose proof (pow2_ge_0 (x2 - x1)). pose proof (pow2_ge_0 (y2 - y1)).
  pose proof (pow2_ge_0 (z2 - z1)).
  unfold distance.
  rewrite !square_of_difference_fits by lra. cbn [bind].
  unfold float_add.
  destruct (Rlt_dec float_max _) as [Hover | _]; [lra |].
  destruct (Rlt_dec float_max _) as [Hover | _]; [lra |].
  cbn [math.sqrt_float]. unfold math.sqrt.
  destruct (Rlt_dec _ 0) as [Hneg | _]; [lra | reflexivity].
Qed.

(** When each square fits but their sum does not, the distance is [inf]. *)
Lemma distance_inf (x1 y1 z1 x2 y2 z2 : R) :
  (x2 - x1) ^ 2 <= float_max -> (y2 - y1) ^ 2 <= float_max ->
  (z2 - z1) ^ 2 <= float_max ->
  float_max < (x2 - x1) ^ 2 + (y2 - y1) ^ 2 + (z2 - z1) ^ 2 ->
  distance x1 y1 z1 x2 y2 z2 = Ok Inf.
Proof.
  intros Hx Hy Hz Hsum. unfold distance.
  rewrite !square_of_difference_fits by assumption. cbn [bind].
  unfold float_add.
  destruct (Rlt_dec float_max ((x2 - x1) ^ 2 + (y2 - y1) ^ 2)) as [_ | _];
    [reflexivity |].
  destruct (Rlt_dec float_max _) as [_ | Hfits]; [reflexivity | contradiction].
Qed.

(** When the first square overflows, the distance raises. *)
Lemma distance_overflow (x1 y1 z1 x2 y2 z2 : R) :
  Rabs (x2 - x1) <= float_max -> float_max < (x2 - x1) ^ 2 ->
  distance x1 y1 z1 x2 y2 z2 = Raise overflow_exn.
Proof.
  intros Habs Hover. unfold distance.
  rewrite square_of_difference_overflow by assumption. reflexivity.
Qed.

(** Shifting by a whole number shifts the floor. *)
Lemma floor_plus_IZR (x : R) (k : Z) : floor (x + IZR k) = (floor x + k)%Z.
Proof.
  unfold floor. symmetry. apply Int_part_spec.
  destruct (base_Int_part x) as [Hle Hgt].
  rewrite plus_IZR. lra.
Qed.

Lemma rmod_range (x m : R) : 0 < m -> 0 <= Spec.rmod x m < m.
Proof.
  intros Hm. unfold Spec.rmod.
  destruct (base_Int_part (x / m)) as [Hle Hgt].
  assert (Hx : x = m * (x / m)) by (field; lra).
  split.
  - assert (m * IZR (Int_part (x / m)) <= m * (x / m)) by (apply Rmult_le_compat_l; lra).
    lra.
  - assert (m * (x / m - 1) < m * IZR (Int_part (x / m))) by (apply Rmult_lt_compat_l; lra).
    lra.
Qed.

(** Adding a whole number of turns does not change the remainder. *)
Lemma rmod_plus_turns (x m : R) (k : Z) :
  m <> 0 -> Spec.rmod (x + m * IZR k) m = Spec.rmod x m.
Proof.
  intros Hm. unfold Spec.rmod.
  replace ((x + m * IZR k) / m) with (x / m + IZR k) by (field; exact Hm).
  fold (floor (x / m + IZR k)). rewrite floor_plus_IZR.
  unfold floor. rewrite plus_IZR. ring.
Qed.

Lemma float_mod_value (x m : R) : m <> 0 -> float_mod x m = Ok (Spec.rmod x m).
Proof.
  intros Hm. unfold float_mod.
  destruct (Req_dec_T m 0) as [Hz | _]; [contradiction | reflexivity].
Qed.

(** The double normalisation of the specification is the single one. *)
Lemma normalise_twice (deg : R) :
  Spec.rmod (Spec.rmod deg 360 + 360) 360 = Spec.rmod (deg + 360) 360.
Proof.
  assert (H360 : (360 : R) <> 0) by lra.
  unfold Spec.rmod at 2.
  replace (deg - 360 * IZR (Int_part (deg / 360)) + 360)
    with (deg + 360 * IZR (1 - Int_part (deg / 360)))
    by (rewrite minus_IZR; ring).
  rewrite rmod_plus_turns by exact H360.
  replace (deg + 360) with (deg + 360 * IZR 1) by ring.
  rewrite rmod_plus_turns by exact H360. reflexivity.
Qed.

Lemma heading_value (user_lat user_lon aircraft_lat aircraft_lon : R) :
  exists h,
    calculate_heading_to_aircraft user_lat user_lon aircraft_lat aircraft_lon = Ok h
    /\ 0 <= h < 360.
Proof.
  unfold calculate_heading_to_aircraft. cbv zeta.
  rewrite float_mod_value by lra.
  eexists. split; [reflexivity |]. apply rmod_range. lra.
Qed.

(** The angle computed by [math.atan2] lies in (-pi, pi], and is 0 at the
    origin, as the C library has it. *)
Lemma atan2_range (y x : R) : - PI < math.atan2 y x <= PI.
Proof.
  unfold math.atan2. pose proof PI_RGT_0 as Hpi.
  pose proof (atan_bound (y / x)) as [Hlo Hhi].
  destruct (Rlt_dec 0 x) as [Hx | Hx]; [lra |].
  destruct (Rlt_dec x 0) as [Hx' | Hx'].
  - destruct (Rle_dec 0 y) as [Hy | Hy].
    + assert (Hq : y / x <= 0).
      { assert (/ x < 0) by (apply Rinv_lt_0_compat; exact Hx').
        unfold Rdiv. nra. }
      assert (atan (y / x) <= 0).
      { destruct Hq as [Hq | Hq].
        - left. rewrite <- atan_0. apply atan_increasing. exact Hq.
        - rewrite Hq, atan_0. lra. }
      lra.
    + assert (Hq : 0 < y / x).
      { assert (/ x < 0) by (apply Rinv_lt_0_compat; exact Hx').
        unfold Rdiv. nra. }
      assert (0 < atan (y / x)).
      { rewrite <- atan_0. apply atan_increasing. exact Hq. }
      lra.
  - destruct (Rlt_dec 0 y); [lra |]. destruct (Rlt_dec y 0); lra.
Qed.

Lemma radians_as_spec (x : R) : math.radians x = x * PI / 180.
Proof. unfold math.radians. field. Qed.

Lemma spec_N_as_code (phi : R) :
  Spec.N_phi phi = 6378137 / R_sqrt.sqrt (1 - 0.006694379990197619 * sin phi ^ 2).
Proof.
  unfold Spec.N_phi, Spec.a, Spec.e2.
  rewrite Rsqr_pow2.
  unfold Rdiv. f_equal. lra.
Qed.

(** C2: for all longitude, latitude (degrees) and altitude (feet),
    [pointToCartesian] returns, without raising, exactly the WGS84
    geodetic-to-ECEF point of the specification: with lambda and phi the
    inputs in radians, h = altitude * 0.3048 and
    N(phi) = 6378137.0 / sqrt (1 - 0.006694379990197619 * sin(phi)^2), the
    point ((N+h) cos phi cos lambda, (N+h) cos phi sin lambda,
    (0.9933056200098024 N + h) sin phi). *)
Theorem pointToCartesian_is_wgs84 (longitude latitude altitude : R) :
  pointToCartesian longitude latitude altitude =
  Ok (Spec.toCartesian longitude latitude altitude).
Proof.
  rewrite pointToCartesian_value. cbv zeta.
  unfold Spec.toCartesian. cbv zeta.
  rewrite !spec_N_as_code, !radians_as_spec. reflexivity.
Qed.

(** C3: for all four inputs, [calculate_heading_to_aircraft] returns,
    without raising, the bearing of the specification,
    atan2 (sin dlon * cos toLat, cos fromLat * sin toLat
           - sin fromLat * cos toLat * cos dlon)
    in degrees, normalised by ((deg % 360) + 360) % 360, and the result lies
    in the half-open interval [0, 360). *)
Theorem bearing_is_normalised (fromLat fromLon toLat toLon : R) :
  exists h,
    calculate_heading_to_aircraft fromLat fromLon toLat toLon = Ok h
    /\ h = Spec.bearingTo fromLat fromLon toLat toLon
    /\ 0 <= h < 360.
Proof.
  destruct (heading_value fromLat fromLon toLat toLon) as (h & Hh & Hrange).
  exists h. split; [exact Hh |]. split; [| exact Hrange].
  unfold calculate_heading_to_aircraft in Hh. cbv zeta in Hh.
  rewrite float_mod_value in Hh by lra.
  injection Hh as <-.
  unfold Spec.bearingTo. cbv zeta.
  rewrite normalise_twice, !radians_as_spec.
  unfold math.degrees.
  f_equal. f_equal. pose proof PI_RGT_0. field. lra.
Qed.

(** ** Facts about [list.sort] *)

Lemma float_lt_le (a b : pyfloat) : float_lt a b = true -> float_le a b.
Proof.
  destruct a as [x |], b as [y |]; cbn; try easy.
  destruct (Rlt_dec x y); [lra | discriminate].
Qed.

Lemma float_not_lt_le (a b : pyfloat) : float_lt a b = false -> float_le b a.
Proof.
  destruct a as [x |], b as [y |]; cbn; try easy.
  destruct (Rlt_dec x y); [discriminate | lra].
Qed.

Lemma float_le_trans (a b c : pyfloat) :
  float_le a b -> float_le b c -> float_le a c.
Proof.
  destruct a, b, c; cbn; try easy. lra.
Qed.

Lemma float_lt_neq (a b d : pyfloat) :
  float_lt a b = true -> float_eqb a d = true -> float_eqb b d = false.
Proof.
  destruct a as [x |], b as [y |], d as [z |]; cbn; try easy.
  destruct (Rlt_dec x y), (Req_dec_T x z), (Req_dec_T y z); try easy. lra.
Qed.

Section ListSortFacts.
Context {A : Type} (key : A -> pyfloat).

Lemma insert_sorted_perm (x : A) (l : list A) :
  Permutation (x :: l) (insert_sorted key x l).
Proof.
  induction l as [| y l IH]; cbn.
  - reflexivity.
  - destruct (float_lt (key y) (key x)).
    + rewrite perm_swap. apply perm_skip. exact IH.
    + reflexivity.
Qed.

Lemma list_sort_perm (l : list A) : Permutation l (list_sort key l).
Proof.
  induction l as [| x l IH]; cbn.
  - constructor.
  - rewrite <- insert_sorted_perm. apply perm_skip. exact IH.
Qed.

Lemma insert_sorted_HdRel (a x : A) (l : list A) :
  (le_by key) a x -> HdRel (le_by key) a l -> HdRel (le_by key) a (insert_sorted key x l).
Proof.
  intros Hax Hal. destruct l as [| y l]; cbn.
  - constructor. exact Hax.
  - destruct (float_lt (key y) (key x)).
    + constructor. inversion Hal. assumption.
    + constructor. exact Hax.
Qed.

Lemma insert_sorted_Sorted (x : A) (l : list A) :
  Sorted (le_by key) l -> Sorted (le_by key) (insert_sorted key x l).
Proof.
  induction 1 as [| y l Hl IH Hhd]; cbn.
  - repeat constructor.
  - destruct (float_lt (key y) (key x)) eqn:Hlt.
    + constructor; [exact IH |].
      apply insert_sorted_HdRel; [| exact Hhd].
      apply float_lt_le. exact Hlt.
    + constructor.
      * constructor; assumption.
      * constructor. apply float_not_lt_le. exact Hlt.
Qed.

Lemma list_sort_Sorted (l : list A) : Sorted (le_by key) (list_sort key l).
Proof.
  induction l as [| x l IH]; cbn.
  - constructor.
  - apply insert_sorted_Sorted. exact IH.
Qed.

Lemma list_sort_StronglySorted (l : list A) :
  StronglySorted (le_by key) (list_sort key l).
Proof.
  apply Sorted_StronglySorted.
  - intros a b c. apply float_le_trans.
  - apply list_sort_Sorted.
Qed.

(** Stability: the elements of any one key keep their order. *)
Lemma insert_sorted_filter (d : pyfloat) (x : A) (l : list A) :
  filter (fun e => float_eqb (key e) d) (insert_sorted key x l) =
  filter (fun e => float_eqb (key e) d) (x :: l).
Proof.
  induction l as [| y l IH]; [reflexivity |].
  cbn [insert_sorted].
  destruct (float_lt (key y) (key x)) eqn:Hlt; [| reflexivity].
  cbn [filter] in *. rewrite IH.
  destruct (float_eqb (key y) d) eqn:Hy; [| reflexivity].
  rewrite (float_lt_neq _ _ _ Hlt Hy). reflexivity.
Qed.

Lemma list_sort_stable (d : pyfloat) (l : list A) :
  filter (fun e => float_eqb (key e) d) (list_sort key l) =
  filter (fun e => float_eqb (key e) d) l.
Proof.
  induction l as [| x l IH]; [reflexivity |].
  cbn [list_sort]. rewrite insert_sorted_filter.
  cbn [filter]. rewrite IH. reflexivity.
Qed.

(** Elements whose key is [float("inf")] end up after all the others, in
    their original order. *)
Lemma insert_finite_before_inf (x : A) (fin inf : list A) :
  is_finite (key x) = true ->
  Forall (fun e => key e = Inf) inf ->
  insert_sorted key x (fin ++ inf) = insert_sorted key x fin ++ inf.
Proof.
  intros Hx Hinf. induction fin as [| y fin IH]; cbn.
  - destruct Hinf as [| y inf Hy _]; [reflexivity |].
    cbn. rewrite Hy. reflexivity.
  - destruct (float_lt (key y) (key x)); [| reflexivity].
    rewrite IH. reflexivity.
Qed.

Lemma insert_inf_after_finite (x : A) (fin inf : list A) :
  key x = Inf ->
  Forall (fun e => is_finite (key e) = true) fin ->
  Forall (fun e => key e = Inf) inf ->
  insert_sorted key x (fin ++ inf) = fin ++ x :: inf.
Proof.
  intros Hx Hfin Hinf. induction Hfin as [| y fin Hy _ IH]; cbn.
  - destruct Hinf as [| y inf Hy _]; [reflexivity |].
    cbn. rewrite Hy. reflexivity.
  - rewrite IH. destruct (key y); [| discriminate].
    rewrite Hx. reflexivity.
Qed.

Lemma list_sort_inf_last (l : list A) :
  list_sort key l =
  list_sort key (filter (fun e => is_finite (key e)) l)
  ++ filter (fun e => negb (is_finite (key e))) l.
Proof.
  induction l as [| x l IH]; [reflexivity |].
  cbn [list_sort filter]. rewrite IH.
  assert (Hinf : Forall (fun e => key e = Inf)
                   (filter (fun e => negb (is_finite (key e))) l)).
  { apply Forall_forall. intros e He. apply filter_In in He as [_ He].
    destruct (key e); [discriminate | reflexivity]. }
  destruct (is_finite (key x)) eqn:Hx; cbn [negb list_sort].
  - apply insert_finite_before_inf; assumption.
  - apply insert_inf_after_finite; [| | exact Hinf].
    + destruct (key x); [discriminate | reflexivity].
    + apply Forall_forall. intros e He.
      apply (Permutation_in _ (Permutation_sym (list_sort_perm _))) in He.
      apply filter_In in He as [_ He]. exact He.
Qed.

End ListSortFacts.

(** ** Facts about the ranking loop *)

Lemma Forall2_Forall_r {A B : Type} (R : A -> B -> Prop) (P : B -> Prop)
  (l : list A) (l' : list B) :
  (forall a b, R a b -> P b) -> Forall2 R l l' -> Forall P l'.
Proof.
  intros HRP. induction 1; constructor; eauto.
Qed.

Lemma Forall2_In_l {A B : Type} (R : A -> B -> Prop) (l : list A)
  (l' : list B) (a : A) :
  Forall2 R l l' -> In a l -> exists b, In b l' /\ R a b.
Proof.
  induction 1 as [| x y l l' Hxy _ IH]; intros Hin; [destruct Hin |].
  destruct Hin as [<- | Hin].
  - exists y. split; [left; reflexivity | exact Hxy].
  - destruct (IH Hin) as (b & Hb & Hab). exists b. split; [right |]; assumption.
Qed.

Section RankingFacts.
Context (api : FlightRadar24API).

Lemma get_flight_data_fail (flight : Flight) :
  details_fail api flight -> get_flight_data api flight = None.
Proof.
  unfold get_flight_data.
  intros [[e He] | (d & e & Hd & He)].
  - rewrite He. reflexivity.
  - rewrite Hd. cbn [bind]. rewrite He. reflexivity.
Qed.

Lemma get_flight_data_succeed (flight flight' : Flight) :
  details_succeed api flight flight' ->
  get_flight_data api flight =
  Some (flight_data.mk
          (getattr (origin_airport_name flight') "Unknown"%string)
          (getattr (destination_airport_name flight') "Unknown"%string)
          (getattr (airline_name flight') "Unknown"%string)
          (getattr (aircraft_model flight') "Unknown"%string)
          (getattr_num (altitude flight'))
          (getattr_num (latitude flight'))
          (getattr_num (longitude flight'))
          (getattr_num (heading flight'))).
Proof.
  unfold get_flight_data.
  intros (d & Hd & Hset). rewrite Hd. cbn [bind]. rewrite Hset. reflexivity.
Qed.

(** [get_flight_data] gives [None] only when the detail fetch raises. *)
Lemma get_flight_data_outcome (flight : Flight) :
  (details_fail api flight /\ get_flight_data api flight = None)
  \/ (exists flight' fd, details_succeed api flight flight'
                         /\ get_flight_data api flight = Some fd).
Proof.
  destruct (get_flight_details api flight) as [d | e] eqn:Hd.
  - destruct (set_flight_details api flight d) as [flight' | e] eqn:Hset.
    + right. assert (Hok : details_succeed api flight flight').
      { exists d. split; assumption. }
      eexists flight', _. split; [exact Hok |].
      apply get_flight_data_succeed. exact Hok.
    + left. assert (Hfail : details_fail api flight).
      { right. exists d, e. split; assumption. }
      split; [exact Hfail | apply get_flight_data_fail; exact Hfail].
  - left. assert (Hfail : details_fail api flight).
    { left. exists e. exact Hd. }
    split; [exact Hfail | apply get_flight_data_fail; exact Hfail].
Qed.

(** Every outcome of one iteration of the loop. *)
Lemma flight_entry_outcome (user_x user_y user_z latitude longitude : R)
  (flight : Flight) :
  (get_flight_data api flight = None
   /\ flight_entry api (user_x, user_y, user_z) latitude longitude flight
      = Ok (error_record flight))
  \/ (exists fd aircraft_x aircraft_y aircraft_z,
        get_flight_data api flight = Some fd
        /\ pointToCartesian (as_float (flight_data.longitude fd))
             (as_float (flight_data.latitude fd))
             (as_float (flight_data.altitude fd))
           = Ok (aircraft_x, aircraft_y, aircraft_z)
        /\ ((exists dist h,
               distance user_x user_y user_z aircraft_x aircraft_y aircraft_z
               = Ok dist
               /\ float_le (Finite 0) dist
               /\ calculate_heading_to_aircraft latitude longitude
                    (as_float (flight_data.latitude fd))
                    (as_float (flight_data.longitude fd)) = Ok h
               /\ 0 <= h < 360
               /\ flight_entry api (user_x, user_y, user_z) latitude longitude
                    flight = Ok (dist, VDict fd, VFloat h))
            \/ (distance user_x user_y user_z aircraft_x aircraft_y aircraft_z
                = Raise overflow_exn
                /\ flight_entry api (user_x, user_y, user_z) latitude longitude
                     flight = Raise overflow_exn))).
Proof.
  unfold flight_entry.
  destruct (get_flight_data api flight) as [fd |]; [right | left; split; reflexivity].
  destruct (pointToCartesian_total (as_float (flight_data.longitude fd))
              (as_float (flight_data.latitude fd))
              (as_float (flight_data.altitude fd))) as (ax & ay & az & Hair).
  exists fd, ax, ay, az. split; [reflexivity |]. split; [exact Hair |].
  rewrite Hair. cbn [bind].
  destruct (distance_cases user_x user_y user_z ax ay az)
    as [Hover | (dist & Hdist & Hpos)].
  - right. rewrite Hover. split; reflexivity.
  - left. rewrite Hdist. cbn [bind].
    destruct (heading_value latitude longitude
                (as_float (flight_data.latitude fd))
                (as_float (flight_data.longitude fd))) as (h & Hh & Hrange).
    rewrite Hh. cbn [bind]. exists dist, h. repeat split; try assumption; tauto.
Qed.

Lemma flight_entry_raise (user : R * R * R) (latitude longitude : R)
  (flight : Flight) (e : pyexn) :
  flight_entry api user latitude longitude flight = Raise e -> e = overflow_exn.
Proof.
  destruct user as [[ux uy] uz]. intros Hraise.
  destruct (flight_entry_outcome ux uy uz latitude longitude flight)
    as [[_ H] | (fd & ax & ay & az & _ & _ & [(d & h & _ & _ & _ & _ & H) | [_ H]])];
    rewrite H in Hraise; try discriminate Hraise.
  injection Hraise as <-. reflexivity.
Qed.

(** The loop appends the entries of the flights in order, and ends with
    the first exception. *)
Lemma for_flights_entries_of (user : R * R * R) (latitude longitude : R)
  (flights : list Flight) :
  forall aircraft_data,
    for_flights api user latitude longitude flights aircraft_data
    = (es <- entries_of api user latitude longitude flights ;;
       Ok (aircraft_data ++ es)).
Proof.
  destruct user as [[ux uy] uz].
  induction flights as [| flight rest IH]; intros aircraft_data.
  - cbn. rewrite app_nil_r. reflexivity.
  - cbn [for_flights entries_of]. unfold flight_entry.
    destruct (get_flight_data api flight) as [fd |].
    + destruct (pointToCartesian _ _ _) as [[[ax ay] az] | e]; cbn [bind];
        [| reflexivity].
      destruct (distance ux uy uz ax ay az) as [dist | e]; cbn [bind];
        [| reflexivity].
      destruct (calculate_heading_to_aircraft _ _ _ _) as [h | e]; cbn [bind];
        [| reflexivity].
      rewrite IH.
      destruct (entries_of api (ux, uy, uz) latitude longitude rest) as [es | e];
        cbn [bind]; [| reflexivity].
      rewrite <- app_assoc. reflexivity.
    + cbn [bind]. rewrite IH.
      destruct (entries_of api (ux, uy, uz) latitude longitude rest) as [es | e];
        cbn [bind]; [| reflexivity].
      rewrite <- app_assoc. reflexivity.
Qed.

Lemma entries_of_ok (user : R * R * R) (latitude longitude : R)
  (flights : list Flight) :
  forall es,
    entries_of api user latitude longitude flights = Ok es ->
    Forall2 (fun flight e =>
               flight_entry api user latitude longitude flight = Ok e)
      flights es.
Proof.
  induction flights as [| flight rest IH]; intros es Hes; cbn in Hes.
  - injection Hes as <-. constructor.
  - destruct (flight_entry api user latitude longitude flight) as [e | ex] eqn:He;
      cbn [bind] in Hes; [| discriminate Hes].
    destruct (entries_of api user latitude longitude rest) as [es' | ex];
      cbn [bind] in Hes; [| discriminate Hes].
    injection Hes as <-. constructor; [exact He | apply IH; reflexivity].
Qed.

Lemma entries_of_raise (user : R * R * R) (latitude longitude : R)
  (flights : list Flight) (ex : pyexn) :
  entries_of api user latitude longitude flights = Raise ex ->
  ex = overflow_exn
  /\ Exists (fun flight =>
               flight_entry api user latitude longitude flight
               = Raise overflow_exn) flights.
Proof.
  induction flights as [| flight rest IH]; intros Hes; cbn in Hes.
  - discriminate Hes.
  - destruct (flight_entry api user latitude longitude flight) as [e | ex'] eqn:He;
      cbn [bind] in Hes.
    + destruct (entries_of api user latitude longitude rest) as [es' | ex'];
        cbn [bind] in Hes; [discriminate Hes |].
      injection Hes as <-. destruct (IH eq_refl) as [-> Hex].
      split; [reflexivity | right; exact Hex].
    + injection Hes as <-.
      pose proof (flight_entry_raise _ _ _ _ _ He) as ->.
      split; [reflexivity | left; exact He].
Qed.

Lemma entries_of_total (user : R * R * R) (latitude longitude : R)
  (flights : list Flight) :
  Forall (fun flight =>
            exists e, flight_entry api user latitude longitude flight = Ok e)
    flights ->
  exists es, entries_of api user latitude longitude flights = Ok es.
Proof.
  induction 1 as [| flight rest [e He] _ [es Hes]]; cbn.
  - exists []. reflexivity.
  - rewrite He, Hes. cbn [bind]. eexists. reflexivity.
Qed.

(** [get_flights_with_distances] once the gateway has answered. *)
Lemma get_flights_with_distances_answered
  (latitude longitude altitude radius_m : R) (user : R * R * R)
  (flights : list Flight) :
  pointToCartesian longitude latitude altitude = Ok user ->
  gateway_answers api latitude longitude radius_m flights ->
  get_flights_with_distances api latitude longitude altitude radius_m
  = match entries_of api user latitude longitude flights with
    | Ok es => Ok es
    | Raise e => Raise (wrapped e)
    end.
Proof.
  intros Huser (bounds & Hbounds & Hflights).
  unfold get_flights_with_distances.
  rewrite Huser. cbn [bind]. rewrite Hbounds. cbn [bind].
  rewrite Hflights. cbn [bind]. rewrite for_flights_entries_of.
  destruct (entries_of api user latitude longitude flights); reflexivity.
Qed.

(** A gateway failure surfaces as one wrapped exception. *)
Lemma get_flights_with_distances_raise (latitude longitude altitude radius_m : R)
  (e : pyexn) :
  gateway_raises api latitude longitude radius_m e ->
  get_flights_with_distances api latitude longitude altitude radius_m
  = Raise (wrapped e).
Proof.
  intros H. unfold get_flights_with_distances.
  destruct (pointToCartesian_total longitude latitude altitude)
    as (ux & uy & uz & Huser).
  rewrite Huser. cbn [bind].
  destruct H as [Hb | (bounds & Hb & Hf)]; rewrite Hb; cbn [bind].
  - reflexivity.
  - rewrite Hf. reflexivity.
Qed.

(** When the call returns, it returns one entry per flight, in the order
    of the flights. *)
Lemma get_flights_with_distances_spec (latitude longitude altitude radius_m : R)
  (flights : list Flight) (aircraft_data : list entry) :
  gateway_answers api latitude longitude radius_m flights ->
  get_flights_with_distances api latitude longitude altitude radius_m
  = Ok aircraft_data ->
  Forall2 (ranked_as api latitude longitude altitude) flights aircraft_data.
Proof.
  intros Hgw Hget.
  destruct (pointToCartesian_total longitude latitude altitude)
    as (ux & uy & uz & Huser).
  rewrite (get_flights_with_distances_answered _ _ _ _ _ _ Huser Hgw) in Hget.
  destruct (entries_of api (ux, uy, uz) latitude longitude flights) as [es | e] eqn:Hes;
    [| discriminate Hget].
  injection Hget as <-.
  eapply Forall2_impl; [| apply (entries_of_ok _ _ _ _ _ Hes)].
  intros f e He. exists (ux, uy, uz). split; assumption.
Qed.

Lemma distance_returns_entry (latitude longitude altitude : R)
  (user : R * R * R) (flight : Flight) :
  pointToCartesian longitude latitude altitude = Ok user ->
  (forall fd, get_flight_data api flight = Some fd ->
              distance_returns latitude longitude altitude fd) ->
  exists e, flight_entry api user latitude longitude flight = Ok e.
Proof.
  destruct user as [[ux uy] uz]. intros Huser Hret.
  destruct (flight_entry_outcome ux uy uz latitude longitude flight)
    as [[_ H] | (fd & ax & ay & az & Hfd & Hair
                 & [(d & h & _ & _ & _ & _ & H) | [Hover _]])];
    try (eexists; exact H).
  exfalso.
  destruct (Hret fd Hfd) as (ux' & uy' & uz' & ax' & ay' & az' & d & Hu & Ha & Hd).
  rewrite Huser in Hu. injection Hu as <- <- <-.
  rewrite Hair in Ha. injection Ha as <- <- <-.
  rewrite Hover in Hd. discriminate Hd.
Qed.

(** When the gateway answers and no distance overflows, the call returns. *)
Lemma get_flights_with_distances_returns
  (latitude longitude altitude radius_m : R) (flights : list Flight) :
  gateway_answers api latitude longitude radius_m flights ->
  no_overflow api latitude longitude altitude flights ->
  exists aircraft_data,
    get_flights_with_distances api latitude longitude altitude radius_m
    = Ok aircraft_data
    /\ Forall2 (ranked_as api latitude longitude altitude) flights aircraft_data.
Proof.
  intros Hgw Hno.
  destruct (pointToCartesian_total longitude latitude altitude)
    as (ux & uy & uz & Huser).
  destruct (entries_of_total (ux, uy, uz) latitude longitude flights) as (es & Hes).
  { eapply Forall_impl; [| exact Hno].
    intros f Hf. apply (distance_returns_entry _ _ _ _ _ Huser Hf). }
  assert (Hget : get_flights_with_distances api latitude longitude altitude
                   radius_m = Ok es).
  { rewrite (get_flights_with_distances_answered _ _ _ _ _ _ Huser Hgw), Hes.
    reflexivity. }
  exists es. split; [exact Hget |].
  apply (get_flights_with_distances_spec _ _ _ _ _ _ Hgw Hget).
Qed.

(** Every outcome of [get_flights_with_distances]. *)
Lemma get_flights_with_distances_cases (latitude longitude altitude radius_m : R) :
  (exists flights aircraft_data,
     gateway_answers api latitude longitude radius_m flights
     /\ get_flights_with_distances api latitude longitude altitude radius_m
        = Ok aircraft_data
     /\ Forall2 (ranked_as api latitude longitude altitude) flights aircraft_data)
  \/ (exists e,
        gateway_raises api latitude longitude radius_m e
        /\ get_flights_with_distances api latitude longitude altitude radius_m
           = Raise (wrapped e))
  \/ (exists flights,
        gateway_answers api latitude longitude radius_m flights
        /\ ~ no_overflow api latitude longitude altitude flights
        /\ get_flights_with_distances api latitude longitude altitude radius_m
           = Raise (wrapped overflow_exn)).
Proof.
  destruct (get_bounds_by_point api latitude longitude radius_m)
    as [bounds | e] eqn:Hbounds.
  2:{ right. left. exists e.
      assert (Hraise : gateway_raises api latitude longitude radius_m e)
        by (left; exact Hbounds).
      split; [exact Hraise | apply get_flights_with_distances_raise; exact Hraise]. }
  destruct (get_flights api bounds) as [flights | e] eqn:Hflights.
  2:{ right. left. exists e.
      assert (Hraise : gateway_raises api latitude longitude radius_m e)
        by (right; exists bounds; split; assumption).
      split; [exact Hraise | apply get_flights_with_distances_raise; exact Hraise]. }
  assert (Hgw : gateway_answers api latitude longitude radius_m flights)
    by (exists bounds; split; assumption).
  destruct (pointToCartesian_total longitude latitude altitude)
    as (ux & uy & uz & Huser).
  pose proof (get_flights_with_distances_answered _ _ _ _ _ _ Huser Hgw) as Hget.
  destruct (entries_of api (ux, uy, uz) latitude longitude flights) as [es | e] eqn:Hes.
  - left. exists flights, es. split; [exact Hgw |]. split; [exact Hget |].
    apply (get_flights_with_distances_spec _ _ _ _ _ _ Hgw Hget).
  - right. right. exists flights. split; [exact Hgw |].
    destruct (entries_of_raise _ _ _ _ _ Hes) as [-> Hex].
    split; [| exact Hget].
    intros Hno.
    destruct (get_flights_with_distances_returns _ _ _ _ _ Hgw Hno)
      as (ad & Had & _).
    rewrite Hget in Had. discriminate Had.
Qed.

Lemma ranked_as_shape (latitude longitude altitude : R) (flight : Flight)
  (e : entry) :
  ranked_as api latitude longitude altitude flight e ->
  (get_flight_data api flight = None /\ e = error_record flight)
  \/ (exists fd dist h,
        get_flight_data api flight = Some fd
        /\ e = (dist, VDict fd, VFloat h)
        /\ float_le (Finite 0) dist /\ 0 <= h < 360).
Proof.
  intros ([[ux uy] uz] & _ & He).
  destruct (flight_entry_outcome ux uy uz latitude longitude flight)
    as [[Hnone H] | (fd & ax & ay & az & Hfd & _
                     & [(d & h & _ & Hpos & _ & Hrange & H) | [_ H]])];
    rewrite H in He; try discriminate He; injection He as <-.
  - left. split; [exact Hnone | reflexivity].
  - right. exists fd, d, h. repeat split; try assumption; tauto.
Qed.

(** The resolved case in full: both points, the distance and the bearing. *)
Lemma ranked_as_resolved (latitude longitude altitude : R) (flight : Flight)
  (e : entry) (fd : flight_data.t) :
  ranked_as api latitude longitude altitude flight e ->
  get_flight_data api flight = Some fd ->
  exists user_x user_y user_z aircraft_x aircraft_y aircraft_z dist h,
    pointToCartesian longitude latitude altitude = Ok (user_x, user_y, user_z)
    /\ pointToCartesian (as_float (flight_data.longitude fd))
         (as_float (flight_data.latitude fd))
         (as_float (flight_data.altitude fd))
       = Ok (aircraft_x, aircraft_y, aircraft_z)
    /\ distance user_x user_y user_z aircraft_x aircraft_y aircraft_z = Ok dist
    /\ calculate_heading_to_aircraft latitude longitude
         (as_float (flight_data.latitude fd))
         (as_float (flight_data.longitude fd)) = Ok h
    /\ e = (dist, VDict fd, VFloat h).
Proof.
  intros ([[ux uy] uz] & Huser & He) Hfd.
  destruct (flight_entry_outcome ux uy uz latitude longitude flight)
    as [[Hnone _] | (fd' & ax & ay & az & Hfd' & Hair
                     & [(d & h & Hd & _ & Hh & _ & H) | [_ H]])].
  - rewrite Hnone in Hfd. discriminate Hfd.
  - rewrite Hfd in Hfd'. injection Hfd' as <-.
    rewrite H in He. injection He as <-.
    exists ux, uy, uz, ax, ay, az, d, h. repeat split; assumption.
  - rewrite H in He. discriminate He.
Qed.

Lemma ranked_as_functional (latitude longitude altitude : R)
  (flight : Flight) (e e' : entry) :
  ranked_as api latitude longitude altitude flight e ->
  ranked_as api latitude longitude altitude flight e' ->
  e = e'.
Proof.
  intros (user & Hu & He) (user' & Hu' & He').
  rewrite Hu in Hu'. injection Hu' as <-.
  rewrite He in He'. injection He' as <-. reflexivity.
Qed.

Lemma ranked_as_well_shaped (latitude longitude altitude : R)
  (flight : Flight) (e : entry) :
  ranked_as api latitude longitude altitude flight e -> well_shaped e.
Proof.
  intros H. apply ranked_as_shape in H.
  destruct H as [[_ ->] | (fd & dist & h & _ & -> & Hpos & Hrange)].
  - left. exists flight. reflexivity.
  - right. exists dist, fd, h. repeat split; try assumption; tauto.
Qed.

Lemma ranked_as_inv (latitude longitude altitude : R) (flight : Flight)
  (e : entry) :
  ranked_as api latitude longitude altitude flight e ->
  ranked_observation_inv e
  /\ (is_resolved e = false -> item0 e = Inf).
Proof.
  intros H. apply ranked_as_shape in H.
  destruct H as [[_ ->] | (fd & dist & h & _ & -> & _)];
    unfold ranked_observation_inv, populated, observation, error_message;
    cbn.
  - split; [| reflexivity]. split; [| reflexivity].
    right. split; [intros H; apply H; reflexivity | discriminate].
  - split; [| discriminate]. split.
    + left. split; [discriminate | intros H; apply H; reflexivity].
    + intros H. exfalso. apply H. reflexivity.
Qed.

End RankingFacts.
(** ** Altitudes for which no distance overflows *)

Lemma N_value_bounds (phi : R) :
  0 < 6378137 / sqrt (1 - 0.006694379990197619 * sin phi ^ 2) <= 6500000.
Proof.
  pose proof (sin_pow2_bounds phi) as [H0 H1].
  set (r := 1 - 0.006694379990197619 * sin phi ^ 2).
  assert (Hr : 0.99 * 0.99 <= r) by (unfold r; lra).
  assert (Hs : 0.99 <= sqrt r).
  { rewrite <- (sqrt_square 0.99) by lra. apply sqrt_le_1_alt. exact Hr. }
  split.
  - apply Rdiv_lt_0_compat; lra.
  - apply (Rmult_le_reg_r (sqrt r)); [lra |].
    unfold Rdiv. rewrite Rmult_assoc, Rinv_l by lra. nra.
Qed.

(** Every coordinate is at most the largest radius of curvature plus the
    altitude, in absolute value. *)
Lemma pointToCartesian_bounded (longitude latitude altitude : R) :
  exists x y z,
    pointToCartesian longitude latitude altitude = Ok (x, y, z)
    /\ - (6500000 + Rabs altitude) <= x <= 6500000 + Rabs altitude
    /\ - (6500000 + Rabs altitude) <= y <= 6500000 + Rabs altitude
    /\ - (6500000 + Rabs altitude) <= z <= 6500000 + Rabs altitude.
Proof.
  rewrite pointToCartesian_value. cbv zeta.
  set (phi := math.radians latitude). set (lam := math.radians longitude).
  pose proof (N_value_bounds phi) as [Hn0 Hn1].
  set (n := 6378137 / sqrt (1 - 0.006694379990197619 * sin phi ^ 2)) in *.
  pose proof (COS_bound phi) as [Hc0 Hc1]. pose proof (SIN_bound phi) as [Hs0 Hs1].
  pose proof (COS_bound lam) as [Hl0 Hl1]. pose proof (SIN_bound lam) as [Hm0 Hm1].
  pose proof (Rabs_pos altitude) as Habs0.
  assert (Halt : - Rabs altitude <= altitude <= Rabs altitude).
  { split; [pose proof (Rle_abs (- altitude)) as H; rewrite Rabs_Ropp in H; lra
           | apply Rle_abs]. }
  set (B := 6500000 + Rabs altitude).
  assert (Hb : 0 <= B) by (unfold B; lra).
  assert (Hu : - B <= n + altitude * 0.3048 <= B) by (unfold B; lra).
  assert (Hv : - B <= 0.9933056200098024 * n + altitude * 0.3048 <= B)
    by (unfold B; lra).
  assert (Hprod : forall u c, - B <= u <= B -> -1 <= c <= 1 -> - B <= u * c <= B).
  { intros u c Hu' Hc'. split; nra. }
  do 3 eexists. split; [reflexivity |].
  split; [| split].
  - apply Hprod; [apply Hprod; [exact Hu | lra] | lra].
  - apply Hprod; [apply Hprod; [exact Hu | lra] | lra].
  - apply Hprod; [exact Hv | lra].
Qed.

(** Between two points whose altitudes are at most 1e150 feet in absolute
    value the distance is returned and finite. *)
Lemma distance_of_bounded_altitudes
  (lon1 lat1 alt1 lon2 lat2 alt2 x1 y1 z1 x2 y2 z2 : R) :
  Rabs alt1 <= 1e150 -> Rabs alt2 <= 1e150 ->
  pointToCartesian lon1 lat1 alt1 = Ok (x1, y1, z1) ->
  pointToCartesian lon2 lat2 alt2 = Ok (x2, y2, z2) ->
  distance x1 y1 z1 x2 y2 z2
  = Ok (Finite (sqrt ((x2 - x1) ^ 2 + (y2 - y1) ^ 2 + (z2 - z1) ^ 2))).
Proof.
  intros Ha1 Ha2 H1 H2.
  destruct (pointToCartesian_bounded lon1 lat1 alt1)
    as (x & y & z & H1' & Hx1 & Hy1 & Hz1).
  rewrite H1 in H1'. injection H1' as <- <- <-.
  destruct (pointToCartesian_bounded lon2 lat2 alt2)
    as (x & y & z & H2' & Hx2 & Hy2 & Hz2).
  rewrite H2 in H2'. injection H2' as <- <- <-.
  apply distance_finite.
  pose proof float_max_bounds as [Hmax _].
  assert (Hsq : forall u v, - (6500000 + Rabs alt1) <= u <= 6500000 + Rabs alt1 ->
                            - (6500000 + Rabs alt2) <= v <= 6500000 + Rabs alt2 ->
                            (v - u) ^ 2 <= 1e301).
  { intros u v Hu Hv.
    assert (- 3e150 <= v - u <= 3e150) by lra. nra. }
  pose proof (Hsq _ _ Hx1 Hx2). pose proof (Hsq _ _ Hy1 Hy2).
  pose proof (Hsq _ _ Hz1 Hz2). lra.
Qed.

Lemma distance_returns_bounded (latitude longitude altitude : R)
  (fd : flight_data.t) :
  Rabs altitude <= 1e150 ->
  Rabs (as_float (flight_data.altitude fd)) <= 1e150 ->
  distance_returns latitude longitude altitude fd.
Proof.
  intros Hu Ha.
  destruct (pointToCartesian_total longitude latitude altitude)
    as (ux & uy & uz & Huser).
  destruct (pointToCartesian_total (as_float (flight_data.longitude fd))
              (as_float (flight_data.latitude fd))
              (as_float (flight_data.altitude fd))) as (ax & ay & az & Hair).
  exists ux, uy, uz, ax, ay, az. eexists.
  split; [exact Huser |]. split; [exact Hair |].
  apply (distance_of_bounded_altitudes _ _ _ _ _ _ _ _ _ _ _ _ Hu Ha Huser Hair).
Qed.

Section Batches.
Context (api : FlightRadar24API).

Lemma no_overflow_bounded (latitude longitude altitude : R)
  (flights : list Flight) :
  Rabs altitude <= 1e150 ->
  Forall (fun flight =>
            forall fd, get_flight_data api flight = Some fd ->
                       Rabs (as_float (flight_data.altitude fd)) <= 1e150)
    flights ->
  no_overflow api latitude longitude altitude flights.
Proof.
  intros Hu Hall. unfold no_overflow.
  eapply Forall_impl; [| exact Hall].
  intros f Hf fd Hfd. apply distance_returns_bounded; [exact Hu | apply Hf; exact Hfd].
Qed.

(** Removing the flights whose details cannot be fetched changes neither
    whether the loop raises nor what the resolved entries are. *)
Lemma entries_of_filter (user : R * R * R) (latitude longitude : R)
  (flights : list Flight) :
  match entries_of api user latitude longitude flights with
  | Ok es =>
      exists es',
        entries_of api user latitude longitude (filter (resolves api) flights)
        = Ok es'
        /\ valid_aircraft_of es = valid_aircraft_of es'
  | Raise e =>
      entries_of api user latitude longitude (filter (resolves api) flights)
      = Raise e
  end.
Proof.
  destruct user as [[ux uy] uz].
  induction flights as [| flight rest IH]; cbn [entries_of filter].
  - exists []. split; reflexivity.
  - destruct (flight_entry_outcome api ux uy uz latitude longitude flight)
      as [[Hnone He] | (fd & ax & ay & az & Hfd & _
                        & [(d & h & _ & _ & _ & _ & He) | [_ He]])].
    + replace (resolves api flight) with false
        by (unfold resolves; rewrite Hnone; reflexivity).
      rewrite He. cbn [bind].
      destruct (entries_of api (ux, uy, uz) latitude longitude rest) as [es | e];
        cbn [bind]; [| exact IH].
      destruct IH as (es' & Hes' & Hvalid). exists es'.
      split; [exact Hes' | exact Hvalid].
    + replace (resolves api flight) with true
        by (unfold resolves; rewrite Hfd; reflexivity).
      cbn [entries_of]. rewrite He. cbn [bind].
      destruct (entries_of api (ux, uy, uz) latitude longitude rest) as [es | e];
        cbn [bind].
      * destruct IH as (es' & -> & Hvalid). cbn [bind].
        eexists. split; [reflexivity |]. cbn. rewrite Hvalid. reflexivity.
      * rewrite IH. reflexivity.
    + replace (resolves api flight) with true
        by (unfold resolves; rewrite Hfd; reflexivity).
      cbn [entries_of]. rewrite He. reflexivity.
Qed.

Lemma gateway_answers_without_failed (latitude longitude radius_m : R)
  (flights : list Flight) :
  gateway_answers api latitude longitude radius_m flights ->
  gateway_answers (without_failed api) latitude longitude radius_m
    (filter (resolves api) flights).
Proof.
  intros (bounds & Hbounds & Hflights). exists bounds. split; [exact Hbounds |].
  cbn. rewrite Hflights. reflexivity.
Qed.

Lemma gateway_raises_without_failed (latitude longitude radius_m : R)
  (e : pyexn) :
  gateway_raises api latitude longitude radius_m e ->
  gateway_raises (without_failed api) latitude longitude radius_m e.
Proof.
  intros [Hb | (bounds & Hb & Hf)]; [left; exact Hb |].
  right. exists bounds. split; [exact Hb |]. cbn. rewrite Hf. reflexivity.
Qed.

Lemma entries_of_without_failed (user : R * R * R) (latitude longitude : R)
  (flights : list Flight) :
  entries_of (without_failed api) user latitude longitude flights
  = entries_of api user latitude longitude flights.
Proof.
  induction flights as [| flight rest IH]; [reflexivity |].
  cbn [entries_of]. rewrite IH. reflexivity.
Qed.

(** The call on the gateway without the failing flights: it raises the
    same exception, or returns the same resolved entries. *)
Lemma get_flights_with_distances_without_failed
  (latitude longitude altitude radius_m : R) :
  match get_flights_with_distances api latitude longitude altitude radius_m with
  | Ok es =>
      exists es',
        get_flights_with_distances (without_failed api) latitude longitude
          altitude radius_m = Ok es'
        /\ valid_aircraft_of es = valid_aircraft_of es'
  | Raise e =>
      get_flights_with_distances (without_failed api) latitude longitude
        altitude radius_m = Raise e
  end.
Proof.
  destruct (pointToCartesian_total longitude latitude altitude)
    as (ux & uy & uz & Huser).
  destruct (get_bounds_by_point api latitude longitude radius_m)
    as [bounds | e] eqn:Hbounds.
  2:{ assert (Hraise : gateway_raises api latitude longitude radius_m e)
        by (left; exact Hbounds).
      rewrite (get_flights_with_distances_raise api _ _ _ _ e Hraise).
      apply get_flights_with_distances_raise.
      apply gateway_raises_without_failed. exact Hraise. }
  destruct (get_flights api bounds) as [flights | e] eqn:Hflights.
  2:{ assert (Hraise : gateway_raises api latitude longitude radius_m e)
        by (right; exists bounds; split; assumption).
      rewrite (get_flights_with_distances_raise api _ _ _ _ e Hraise).
      apply get_flights_with_distances_raise.
      apply gateway_raises_without_failed. exact Hraise. }
  assert (Hgw : gateway_answers api latitude longitude radius_m flights)
    by (exists bounds; split; assumption).
  rewrite (get_flights_with_distances_answered api _ _ _ _ _ _ Huser Hgw).
  rewrite (get_flights_with_distances_answered (without_failed api) _ _ _ _ _ _
             Huser (gateway_answers_without_failed _ _ _ _ Hgw)).
  pose proof (entries_of_filter (ux, uy, uz) latitude longitude flights) as Hfilter.
  rewrite entries_of_without_failed.
  destruct (entries_of api (ux, uy, uz) latitude longitude flights) as [es | e].
  - destruct Hfilter as (es' & -> & Hvalid). exists es'.
    split; [reflexivity | exact Hvalid].
  - rewrite Hfilter. reflexivity.
Qed.

End Batches.

(** ** The ranking claims *)

Section Ranking.
Context (api : FlightRadar24API).

(** C1, as amended: for every user location and every list of flights that
    the gateway returns, when the call returns, it returns one entry per
    flight (the error record for a flight whose detail fetch fails, a tuple
    with the flight's data otherwise), and the ranked sequence of
    [get_aircraft] is a rearrangement of these entries that is ascending by
    distance; the sort is stable (the entries of any one distance keep
    their relative order); every unprocessable entry has distance
    +infinity, so it comes after every entry of finite distance: the ranked
    sequence is the entries of finite distance, all resolvable and sorted,
    followed by the entries of distance +infinity in their original order. *)
Theorem ranked_aircraft_sorted_stable (latitude longitude altitude : R)
  (bounds : Bounds api) (flights : list Flight) (aircraft_data : list entry) :
  get_bounds_by_point api latitude longitude 20000 = Ok bounds ->
  get_flights api bounds = Ok flights ->
  get_flights_with_distances api latitude longitude altitude 20000
  = Ok aircraft_data ->
  exists ranked,
    ranked_aircraft api latitude longitude altitude = Ok ranked
    /\ Forall2
         (fun flight e =>
            (details_fail api flight -> e = error_record flight)
            /\ (forall fd, get_flight_data api flight = Some fd ->
                exists dist h, e = (dist, VDict fd, VFloat h)))
         flights aircraft_data
    /\ Permutation aircraft_data ranked
    /\ StronglySorted by_distance ranked
    /\ (forall d,
          filter (fun e => float_eqb (item0 e) d) ranked
          = filter (fun e => float_eqb (item0 e) d) aircraft_data)
    /\ Forall (fun e => is_resolved e = false -> item0 e = Inf) aircraft_data
    /\ ranked
       = list_sort item0 (filter (fun e => is_finite (item0 e)) aircraft_data)
         ++ filter (fun e => negb (is_finite (item0 e))) aircraft_data
    /\ Forall (fun e => is_resolved e = true)
         (filter (fun e => is_finite (item0 e)) aircraft_data).
Proof.
  intros Hbounds Hflights Hget.
  assert (Hgw : gateway_answers api latitude longitude 20000 flights)
    by (exists bounds; split; assumption).
  pose proof (get_flights_with_distances_spec api _ _ _ _ _ _ Hgw Hget) as Hall.
  exists (list_sort item0 aircraft_data).
  assert (Hinf : Forall (fun e => is_resolved e = false -> item0 e = Inf)
                   aircraft_data).
  { eapply Forall2_Forall_r; [| exact Hall].
    intros f e Hfe. apply (ranked_as_inv api _ _ _ _ _ Hfe). }
  split; [unfold ranked_aircraft; rewrite Hget; reflexivity |].
  split.
  { eapply Forall2_impl; [| exact Hall].
    intros f e Hfe. apply ranked_as_shape in Hfe. split.
    - intros Hfail. rewrite (get_flight_data_fail api f Hfail) in Hfe.
      destruct Hfe as [[_ He] | (fd & dist & h & Hfd & _)];
        [exact He | discriminate Hfd].
    - intros fd Hfd.
      destruct Hfe as [[Hnone _] | (fd' & dist & h & Hfd' & He & _)].
      + rewrite Hnone in Hfd. discriminate Hfd.
      + rewrite Hfd in Hfd'. injection Hfd' as <-. exists dist, h. exact He. }
  split; [apply list_sort_perm |].
  split; [apply list_sort_StronglySorted |].
  split; [intros d; apply list_sort_stable |].
  split; [exact Hinf |].
  split; [apply list_sort_inf_last |].
  rewrite Forall_forall in *. intros e He.
  apply filter_In in He as [He Hfin].
  specialize (Hinf e He).
  destruct (is_resolved e); [reflexivity |].
  rewrite (Hinf eq_refl) in Hfin. discriminate Hfin.
Qed.

(** C4, as amended: whenever the call returns, each successfully ranked
    entry is the tuple (distance, aircraft-data, bearing), in that order,
    where the distance is the Euclidean distance of the two Cartesian
    points and the bearing is computed from the geodetic coordinates. *)
Theorem ranked_entry_layout (latitude longitude altitude radius_m : R)
  (bounds : Bounds api) (flights : list Flight) (aircraft_data : list entry) :
  get_bounds_by_point api latitude longitude radius_m = Ok bounds ->
  get_flights api bounds = Ok flights ->
  get_flights_with_distances api latitude longitude altitude radius_m
  = Ok aircraft_data ->
  Forall (fun e => is_resolved e = true -> layout_distance_data_bearing e)
    aircraft_data
  /\ Forall2
       (fun flight e =>
          forall fd, get_flight_data api flight = Some fd ->
          exists user_x user_y user_z aircraft_x aircraft_y aircraft_z dist h,
            pointToCartesian longitude latitude altitude
            = Ok (user_x, user_y, user_z)
            /\ pointToCartesian (as_float (flight_data.longitude fd))
                 (as_float (flight_data.latitude fd))
                 (as_float (flight_data.altitude fd))
               = Ok (aircraft_x, aircraft_y, aircraft_z)
            /\ distance user_x user_y user_z aircraft_x aircraft_y aircraft_z
               = Ok dist
            /\ calculate_heading_to_aircraft latitude longitude
                 (as_float (flight_data.latitude fd))
                 (as_float (flight_data.longitude fd)) = Ok h
            /\ e = (dist, VDict fd, VFloat h))
       flights aircraft_data.
Proof.
  intros Hbounds Hflights Hget.
  assert (Hgw : gateway_answers api latitude longitude radius_m flights)
    by (exists bounds; split; assumption).
  pose proof (get_flights_with_distances_spec api _ _ _ _ _ _ Hgw Hget) as Hall.
  split.
  - eapply Forall2_Forall_r; [| exact Hall].
    intros f e Hfe Hres. apply ranked_as_shape in Hfe.
    destruct Hfe as [[_ ->] | (fd & dist & h & _ & -> & _)]; [discriminate |].
    exists fd, h. split; reflexivity.
  - eapply Forall2_impl; [| exact Hall].
    intros f e Hfe fd Hfd. apply (ranked_as_resolved api _ _ _ _ _ _ Hfe Hfd).
Qed.

(** C5: every entry produced by the ranking, whenever the call returns,
    satisfies the invariant of the data model: exactly one of observation
    payload and error message is populated, and an entry with an error
    message has distance +infinity.  This holds of the entries as fetched
    and as ranked. *)
Theorem ranked_observations_well_formed (latitude longitude altitude : R)
  (bounds : Bounds api) (flights : list Flight) (aircraft_data : list entry) :
  get_bounds_by_point api latitude longitude 20000 = Ok bounds ->
  get_flights api bounds = Ok flights ->
  get_flights_with_distances api latitude longitude altitude 20000
  = Ok aircraft_data ->
  exists ranked,
    ranked_aircraft api latitude longitude altitude = Ok ranked
    /\ Forall ranked_observation_inv aircraft_data
    /\ Forall ranked_observation_inv ranked.
Proof.
  intros Hbounds Hflights Hget.
  assert (Hgw : gateway_answers api latitude longitude 20000 flights)
    by (exists bounds; split; assumption).
  pose proof (get_flights_with_distances_spec api _ _ _ _ _ _ Hgw Hget) as Hall.
  assert (Hinv : Forall ranked_observation_inv aircraft_data).
  { eapply Forall2_Forall_r; [| exact Hall].
    intros f e Hfe. apply (ranked_as_inv api _ _ _ _ _ Hfe). }
  exists (list_sort item0 aircraft_data).
  split; [unfold ranked_aircraft; rewrite Hget; reflexivity |].
  split; [exact Hinv |].
  rewrite Forall_forall in *. intros e He. apply Hinv.
  apply (Permutation_in _ (Permutation_sym (list_sort_perm item0 _))).
  exact He.
Qed.

(** C6, as amended: a detail fetch that raises is caught and never ends
    the call: the call raises with the failing flights in the list exactly
    when it raises without them, with the same exception.  When the gateway
    answers and no distance computation of a resolved flight overflows, the
    result has exactly one entry per flight, in order: a flight whose
    detail fetch raises gives its own error record, and every flight whose
    detail fetch succeeds is ranked with its distance, its data and its
    bearing. *)
Theorem detail_failure_is_per_item (latitude longitude altitude radius_m : R) :
  (forall e,
     get_flights_with_distances api latitude longitude altitude radius_m
     = Raise e
     <-> get_flights_with_distances (without_failed api) latitude longitude
           altitude radius_m = Raise e)
  /\ (forall bounds flights,
        get_bounds_by_point api latitude longitude radius_m = Ok bounds ->
        get_flights api bounds = Ok flights ->
        no_overflow api latitude longitude altitude flights ->
        exists aircraft_data,
          get_flights_with_distances api latitude longitude altitude radius_m
          = Ok aircraft_data
          /\ Forall2
               (fun flight e =>
                  (details_fail api flight ->
                   e = (Inf, VNone,
                        VStr ("Error processing flight "
                              ++ flight_str flight)%string))
                  /\ (forall flight', details_succeed api flight flight' ->
                      exists fd dist h,
                        get_flight_data api flight = Some fd
                        /\ float_le (Finite 0) dist
                        /\ 0 <= h < 360
                        /\ e = (dist, VDict fd, VFloat h)))
               flights aircraft_data).
Proof.
  split.
  - intros e.
    pose proof (get_flights_with_distances_without_failed api latitude longitude
                  altitude radius_m) as H.
    destruct (get_flights_with_distances api latitude longitude altitude radius_m)
      as [es | e0].
    + destruct H as (es' & -> & _). split; intros Hr; discriminate Hr.
    + rewrite H. tauto.
  - intros bounds flights Hbounds Hflights Hno.
    assert (Hgw : gateway_answers api latitude longitude radius_m flights)
      by (exists bounds; split; assumption).
    destruct (get_flights_with_distances_returns api _ _ _ _ _ Hgw Hno)
      as (aircraft_data & Hget & Hall).
    exists aircraft_data. split; [exact Hget |].
    eapply Forall2_impl; [| exact Hall].
    intros f e Hfe. apply ranked_as_shape in Hfe. split.
    + intros Hfail. rewrite (get_flight_data_fail api f Hfail) in Hfe.
      destruct Hfe as [[_ He] | (fd & dist & h & Hfd & _)];
        [exact He | discriminate Hfd].
    + intros f' Hok. rewrite (get_flight_data_succeed api f f' Hok) in Hfe.
      destruct Hfe as [[Hnone _] | (fd & dist & h & Hfd & He & Hpos & Hrange)];
        [discriminate Hnone |].
      exists fd, dist, h. split; [| repeat split; try assumption; tauto].
      rewrite (get_flight_data_succeed api f f' Hok). exact Hfd.
Qed.

(** C9, as amended: when the detail fetch of a flight succeeds,
    [get_flight_data] returns a record whatever attributes the flight
    lacks: an absent textual attribute reads "Unknown", an absent numeric
    attribute reads the int 0, a present attribute is read as it is; and
    whenever the call returns for a list of flights that contains it, the
    flight is ranked as a resolvable entry carrying that record, not as an
    error entry. *)
Theorem missing_attributes_default (flight flight' : Flight) :
  details_succeed api flight flight' ->
  exists fd,
    get_flight_data api flight = Some fd
    /\ flight_data.source fd
       = match origin_airport_name flight' with Some v => v | None => "Unknown"%string end
    /\ flight_data.destination fd
       = match destination_airport_name flight' with Some v => v | None => "Unknown"%string end
    /\ flight_data.airline fd
       = match airline_name flight' with Some v => v | None => "Unknown"%string end
    /\ flight_data.aircraft_type fd
       = match aircraft_model flight' with Some v => v | None => "Unknown"%string end
    /\ flight_data.altitude fd
       = match altitude flight' with Some v => FloatNum v | None => IntZero end
    /\ flight_data.latitude fd
       = match latitude flight' with Some v => FloatNum v | None => IntZero end
    /\ flight_data.longitude fd
       = match longitude flight' with Some v => FloatNum v | None => IntZero end
    /\ flight_data.heading fd
       = match heading flight' with Some v => FloatNum v | None => IntZero end
    /\ as_float IntZero = 0
    /\ forall user_lat user_lon user_alt radius_m bounds flights aircraft_data,
         get_bounds_by_point api user_lat user_lon radius_m = Ok bounds ->
         get_flights api bounds = Ok flights ->
         In flight flights ->
         get_flights_with_distances api user_lat user_lon user_alt radius_m
         = Ok aircraft_data ->
         exists dist h,
           In (dist, VDict fd, VFloat h) aircraft_data
           /\ is_resolved (dist, VDict fd, VFloat h) = true.
Proof.
  intros Hok. eexists. split; [apply (get_flight_data_succeed api _ _ Hok) |].
  cbn [flight_data.source flight_data.destination flight_data.airline
       flight_data.aircraft_type flight_data.altitude flight_data.latitude
       flight_data.longitude flight_data.heading].
  unfold getattr_num, getattr.
  split; [reflexivity |]. split; [reflexivity |]. split; [reflexivity |].
  split; [reflexivity |].
  split; [destruct (altitude flight'); reflexivity |].
  split; [destruct (latitude flight'); reflexivity |].
  split; [destruct (longitude flight'); reflexivity |].
  split; [destruct (heading flight'); reflexivity |].
  split; [reflexivity |].
  intros user_lat user_lon user_alt radius_m bounds flights aircraft_data
    Hbounds Hflights Hin Hget.
  assert (Hgw : gateway_answers api user_lat user_lon radius_m flights)
    by (exists bounds; split; assumption).
  pose proof (get_flights_with_distances_spec api _ _ _ _ _ _ Hgw Hget) as Hall.
  destruct (Forall2_In_l _ _ _ _ Hall Hin) as (e & He & Hfe).
  apply ranked_as_shape in Hfe.
  rewrite (get_flight_data_succeed api _ _ Hok) in Hfe.
  destruct Hfe as [[Hnone _] | (fd & dist & h & Hfd & -> & _)];
    [discriminate Hnone |].
  injection Hfd as <-. exists dist, h. split; [exact He | reflexivity].
Qed.

End Ranking.

(** ** The request handlers *)

Section Handlers.
Context (py : PyRuntime) (api : FlightRadar24API).

Lemma validate_invalid (request : Request) :
  invalid_location_params py request ->
  validate_location_params py request
  = Raise (mk_exn ValueError invalid_params_msg).
Proof.
  unfold invalid_location_params, rejected, validate_location_params, py_float.
  intros H.
  destruct (args_get request "longitude") as [slon |];
    [destruct (float_of_string py slon) as [lon |] eqn:Hlon |];
    cbn [bind exn_class_of]; try reflexivity.
  destruct (args_get request "latitude") as [slat |];
    [destruct (float_of_string py slat) as [lat |] eqn:Hlat |];
    cbn [bind exn_class_of]; try reflexivity.
  destruct (args_get request "altitude") as [salt |];
    [destruct (float_of_string py salt) as [alt |] eqn:Halt |];
    cbn [bind exn_class_of]; try reflexivity; exfalso.
  - destruct H as [H | [H | (s & Hs & Hnone)]]; try congruence.
  - destruct H as [H | [H | (s & Hs & Hnone)]]; congruence.
Qed.

Lemma validate_altitude_default (request : Request) (longitude latitude : R) :
  py_float py (args_get request "longitude") = Ok longitude ->
  py_float py (args_get request "latitude") = Ok latitude ->
  args_get request "altitude" = None ->
  validate_location_params py request = Ok (longitude, latitude, 0).
Proof.
  intros Hlon Hlat Halt. unfold validate_location_params.
  rewrite Hlon, Hlat, Halt. reflexivity.
Qed.

(** C7: a request to [/] or [/closest] whose longitude or latitude is
    missing or not a number, or whose altitude is present and not a number,
    is answered with status 400 and the body
    [Error: Invalid longitude, latitude, or altitude values]; a missing
    altitude is not an error and reads as 0. *)
Theorem invalid_params_give_400 (request : Request) :
  (invalid_location_params py request ->
   get_aircraft py api request
   = ("Error: Invalid longitude, latitude, or altitude values"%string, 400%Z, [])
   /\ get_closest_aircraft py api request
      = ("Error: Invalid longitude, latitude, or altitude values"%string, 400%Z, []))
  /\ (forall longitude latitude,
        py_float py (args_get request "longitude") = Ok longitude ->
        py_float py (args_get request "latitude") = Ok latitude ->
        args_get request "altitude" = None ->
        validate_location_params py request = Ok (longitude, latitude, 0)).
Proof.
  split.
  - intros Hinv. apply validate_invalid in Hinv.
    unfold get_aircraft, get_closest_aircraft. rewrite Hinv.
    split; reflexivity.
  - apply validate_altitude_default.
Qed.

Lemma valid_aircraft_of_errors (latitude longitude altitude : R)
  (flights : list Flight) (aircraft_data : list entry) :
  Forall2 (ranked_as api latitude longitude altitude) flights aircraft_data ->
  Forall (fun flight => get_flight_data api flight = None) flights ->
  valid_aircraft_of aircraft_data = [].
Proof.
  induction 1 as [| f e fl es Hfe _ IH]; intros Hnone; [reflexivity |].
  inversion Hnone as [| ? ? Hf Hrest]; subst.
  apply ranked_as_shape in Hfe.
  destruct Hfe as [[_ ->] | (fd & dist & h & Hfd & _)].
  - cbn. apply IH. exact Hrest.
  - rewrite Hf in Hfd. discriminate Hfd.
Qed.

(** The answer of [/closest] once the entries are fetched. *)
Lemma get_closest_aircraft_fetched (request : Request)
  (longitude latitude altitude : R) (aircraft_data : list entry) :
  validate_location_params py request = Ok (longitude, latitude, altitude) ->
  get_flights_with_distances api latitude longitude altitude 10000
  = Ok aircraft_data ->
  get_closest_aircraft py api request =
  handle
    (match valid_aircraft_of aircraft_data with
     | [] => Ok (not_found_msg, 200%Z, text_plain)
     | _ :: _ =>
         match list_sort fst (valid_aircraft_of aircraft_data) with
         | (closest_dist, closest_flight) :: _ =>
             sentence <- closest_sentence closest_flight ;;
             Ok (sentence, 200%Z, text_plain)
         | [] => Raise (mk_exn IndexError "list index out of range")
         end
     end).
Proof.
  intros Hvalid Hget. unfold get_closest_aircraft.
  rewrite Hvalid. cbn [bind]. rewrite Hget. reflexivity.
Qed.

(** The answer of either route when the call raises. *)
Lemma handlers_fetch_raised (request : Request)
  (longitude latitude altitude : R) (e : pyexn) :
  validate_location_params py request = Ok (longitude, latitude, altitude) ->
  (get_flights_with_distances api latitude longitude altitude 20000
   = Raise (wrapped e) ->
   get_aircraft py api request
   = (("Error: Error fetching flight data: " ++ exn_msg e)%string, 500%Z, []))
  /\ (get_flights_with_distances api latitude longitude altitude 10000
      = Raise (wrapped e) ->
      get_closest_aircraft py api request
      = (("Error: Error fetching flight data: " ++ exn_msg e)%string, 500%Z, [])).
Proof.
  intros Hvalid. split; intros Hget.
  - unfold get_aircraft, ranked_aircraft. rewrite Hvalid. cbn [bind].
    rewrite Hget. reflexivity.
  - unfold get_closest_aircraft. rewrite Hvalid. cbn [bind].
    rewrite Hget. reflexivity.
Qed.

End Handlers.

Section Responses.
Context (py : PyRuntime) (api : FlightRadar24API).

Lemma closest_without_failed (request : Request) :
  get_closest_aircraft py (without_failed api) request
  = get_closest_aircraft py api request.
Proof.
  unfold get_closest_aircraft.
  destruct (validate_location_params py request) as [[[lon lat] alt] | e];
    [| reflexivity].
  cbn [bind].
  pose proof (get_flights_with_distances_without_failed api lat lon alt 10000)
    as H.
  destruct (get_flights_with_distances api lat lon alt 10000) as [es | e].
  - destruct H as (es' & -> & Hvalid). cbn [bind]. rewrite Hvalid. reflexivity.
  - rewrite H. reflexivity.
Qed.

(** C8: on [/closest] with valid parameters, when the gateway answers and
    no flight resolves (the list is empty, or every detail fetch fails),
    the response is status 200, plain text, with the body
    [No aircraft found within 10km of your location.]; and the error
    entries play no part in any response of [/closest]: removing the
    failing flights from the gateway's answer leaves the response as it is. *)
Theorem closest_none_resolved (request : Request)
  (longitude latitude altitude : R) (bounds : Bounds api)
  (flights : list Flight) :
  validate_location_params py request = Ok (longitude, latitude, altitude) ->
  get_bounds_by_point api latitude longitude 10000 = Ok bounds ->
  get_flights api bounds = Ok flights ->
  Forall (fun flight => details_fail api flight) flights ->
  get_closest_aircraft py api request
  = ("No aircraft found within 10km of your location."%string, 200%Z,
     [("Content-Type", "text/plain")]%string)
  /\ forall request',
       get_closest_aircraft py (without_failed api) request'
       = get_closest_aircraft py api request'.
Proof.
  intros Hvalid Hbounds Hflights Hfail.
  split; [| apply closest_without_failed].
  assert (Hgw : gateway_answers api latitude longitude 10000 flights)
    by (exists bounds; split; assumption).
  assert (Hnone : Forall (fun flight => get_flight_data api flight = None) flights).
  { eapply Forall_impl; [| exact Hfail].
    intros f Hf. apply get_flight_data_fail. exact Hf. }
  destruct (get_flights_with_distances_returns api latitude longitude altitude
              10000 flights Hgw) as (es & Hget & Hall).
  { unfold no_overflow. eapply Forall_impl; [| exact Hnone].
    intros f Hf fd Hfd. rewrite Hf in Hfd. discriminate Hfd. }
  rewrite (get_closest_aircraft_fetched py api request _ _ _ es Hvalid Hget).
  rewrite (valid_aircraft_of_errors api _ _ _ flights es Hall Hnone).
  reflexivity.
Qed.

(** C10: on [/] with valid parameters, when the gateway answers with an
    empty list of aircraft, the response is status 200, plain text, and its
    body is the empty joined listing followed by the fixed instructional
    text, that is the instructional text alone; it is neither an error nor
    the not-found sentence of [/closest]. *)
Theorem empty_listing_is_prompt_only (request : Request)
  (longitude latitude altitude : R) (bounds : Bounds api) :
  validate_location_params py request = Ok (longitude, latitude, altitude) ->
  get_bounds_by_point api latitude longitude 20000 = Ok bounds ->
  get_flights api bounds = Ok [] ->
  get_aircraft py api request
  = (("" ++ prompt)%string, 200%Z, [("Content-Type", "text/plain")]%string)
  /\ ("" ++ prompt)%string = prompt
  /\ prompt <> "No aircraft found within 10km of your location."%string.
Proof.
  intros Hvalid Hbounds Hflights.
  split; [| split; [reflexivity | discriminate]].
  assert (Hgw : gateway_answers api latitude longitude 20000 [])
    by (exists bounds; split; assumption).
  destruct (get_flights_with_distances_returns api latitude longitude altitude
              20000 [] Hgw) as (es & Hget & Hall); [constructor |].
  inversion Hall; subst.
  unfold get_aircraft. rewrite Hvalid. cbn [bind].
  unfold ranked_aircraft. rewrite Hget. reflexivity.
Qed.

End Responses.

(** ** The claims at work on the concrete world *)

Lemma Ok_triple (a b c a' b' c' : R) :
  a = a' -> b = b' -> c = c' -> @Ok (R * R * R) (a, b, c) = Ok (a', b', c').
Proof. intros -> -> ->. reflexivity. Qed.

Lemma radians_0 : math.radians 0 = 0.
Proof. unfold math.radians. ring. Qed.

Lemma radians_45 : math.radians 45 = PI / 4.
Proof. unfold math.radians. field. Qed.

Lemma radians_90 : math.radians 90 = PI / 2.
Proof. unfold math.radians. field. Qed.

(** The point of longitude 0 and latitude 0 lies on the x axis. *)
Lemma pointToCartesian_lon0_lat0 (altitude : R) :
  pointToCartesian 0 0 altitude = Ok (6378137 + altitude * 0.3048, 0, 0).
Proof.
  rewrite pointToCartesian_value. cbv zeta.
  rewrite radians_0, sin_0, cos_0.
  replace (1 - 0.006694379990197619 * 0 ^ 2) with 1 by ring.
  rewrite sqrt_1. apply Ok_triple; field.
Qed.

Lemma sqrt2_ge_1 : 1 <= sqrt 2.
Proof.
  rewrite <- sqrt_1 at 1. apply sqrt_le_1_alt. lra.
Qed.

Lemma inv_sqrt2_facts :
  (1 / sqrt 2) * (1 / sqrt 2) = 1 / 2 /\ 0 < 1 / sqrt 2 <= 1.
Proof.
  assert (H2 : sqrt 2 * sqrt 2 = 2) by (apply sqrt_sqrt; lra).
  pose proof sqrt2_ge_1 as H1.
  split.
  - replace ((1 / sqrt 2) * (1 / sqrt 2)) with (1 / (sqrt 2 * sqrt 2))
      by (field; lra).
    rewrite H2. reflexivity.
  - split.
    + apply Rdiv_lt_0_compat; lra.
    + apply (Rmult_le_reg_r (sqrt 2)); [lra |].
      unfold Rdiv. rewrite Rmult_assoc, Rinv_l by lra. lra.
Qed.

(** The point of longitude 45 and latitude 0 lies on the diagonal of the
    equatorial plane. *)
Lemma pointToCartesian_lon45_lat0 (altitude : R) :
  pointToCartesian 45 0 altitude
  = Ok ((6378137 + altitude * 0.3048) * (1 / sqrt 2),
        (6378137 + altitude * 0.3048) * (1 / sqrt 2), 0).
Proof.
  rewrite pointToCartesian_value. cbv zeta.
  rewrite radians_0, radians_45, sin_0, cos_0, cos_PI4, sin_PI4.
  replace (1 - 0.006694379990197619 * 0 ^ 2) with 1 by ring.
  rewrite sqrt_1. pose proof sqrt2_ge_1. apply Ok_triple; field; lra.
Qed.

Lemma demo_heathrow_data (flights : list Flight) :
  get_flight_data (Demo.api_with flights) Demo.heathrow_777
  = Some (flight_data.mk "London Heathrow" "Unknown" "British Airways"
            "Boeing 777-336(ER)" (FloatNum 35000) (FloatNum 51.5)
            (FloatNum (-0.1)) IntZero).
Proof. reflexivity. Qed.

Lemma demo_unresolved_data (flights : list Flight) :
  get_flight_data (Demo.api_with flights) Demo.unresolved = None.
Proof. reflexivity. Qed.

Lemma demo_unresolved_fails (flights : list Flight) :
  details_fail (Demo.api_with flights) Demo.unresolved.
Proof. left. eexists. reflexivity. Qed.

Lemma lost_data (flights : list Flight) :
  get_flight_data (Demo.api_with flights) Lost.flight
  = Some (flight_data.mk "Unknown" "Unknown" "Nowhere Air" "Unknown"
            IntZero IntZero IntZero (FloatNum 270)).
Proof. reflexivity. Qed.

Lemma high_data (flights : list Flight) :
  get_flight_data (Demo.api_with flights) High.flight
  = Some (flight_data.mk "Unknown" "Unknown" "Unknown" "Unknown"
            (FloatNum 1e300) IntZero IntZero IntZero).
Proof. reflexivity. Qed.

Lemma demo_gateway_answers (flights : list Flight) (latitude longitude radius_m : R) :
  gateway_answers (Demo.api_with flights) latitude longitude radius_m flights.
Proof. exists tt. split; reflexivity. Qed.

(** In the concrete world the call returns for every user altitude of at
    most 1e150 feet. *)
Lemma demo_returns (latitude longitude altitude radius_m : R) :
  Rabs altitude <= 1e150 ->
  exists aircraft_data,
    get_flights_with_distances Demo.api latitude longitude altitude radius_m
    = Ok aircraft_data
    /\ Forall2 (ranked_as Demo.api latitude longitude altitude)
         [Demo.unresolved; Demo.heathrow_777] aircraft_data.
Proof.
  intros Halt.
  apply get_flights_with_distances_returns; [apply demo_gateway_answers |].
  apply no_overflow_bounded; [exact Halt |].
  constructor; [| constructor; [| constructor]].
  - intros fd Hfd. discriminate Hfd.
  - intros fd Hfd. unfold Demo.api in Hfd. rewrite demo_heathrow_data in Hfd.
    injection Hfd as <-. cbn [flight_data.altitude as_float].
    rewrite Rabs_pos_eq; lra.
Qed.

Lemma Rabs_0_small : Rabs 0 <= 1e150.
Proof. rewrite Rabs_R0. lra. Qed.

Lemma Rabs_35000_small : Rabs 35000 <= 1e150.
Proof. rewrite Rabs_pos_eq; lra. Qed.

(** The scenario of the specification: a user at (51.5, -0.1, 0), one
    unresolvable aircraft listed before one resolvable aircraft; the ranked
    list has the resolvable aircraft first and the error entry last. *)
Example demo_ranked :
  exists dist fd h,
    ranked_aircraft Demo.api 51.5 (-0.1) 0
    = Ok [(Finite dist, VDict fd, VFloat h);
          (Inf, VNone, VStr "Error processing flight <N/A>")].
Proof.
  destruct (demo_returns 51.5 (-0.1) 0 20000 Rabs_0_small) as (es & Hget & Hall).
  inversion Hall as [| ? e1 ? es1 H1 Hall1]; subst.
  inversion Hall1 as [| ? e2 ? es2 H2 Hall2]; subst.
  inversion Hall2; subst.
  apply ranked_as_shape in H1.
  destruct H1 as [[_ ->] | (fd & dist & h & Hfd & _)]; [| discriminate Hfd].
  destruct (ranked_as_resolved Demo.api _ _ _ _ _ _ H2 (demo_heathrow_data _))
    as (ux & uy & uz & ax & ay & az & dist & h & Hu & Ha & Hd & _ & ->).
  cbn [as_float flight_data.altitude flight_data.latitude flight_data.longitude]
    in Ha.
  rewrite (distance_of_bounded_altitudes _ _ _ _ _ _ _ _ _ _ _ _
             Rabs_0_small Rabs_35000_small Hu Ha) in Hd.
  injection Hd as <-.
  do 3 eexists. unfold ranked_aircraft. rewrite Hget. reflexivity.
Qed.

(** A flight at altitude 1e300 feet seen from (0, 0, 0): the square in its
    distance overflows and the call raises. *)
Lemma high_flight_fetch_raises :
  get_flights_with_distances (Demo.api_with [High.flight]) 0 0 0 20000
  = Raise (mk_exn Exception "Error fetching flight data: math range error").
Proof.
  rewrite (get_flights_with_distances_answered
             (Demo.api_with [High.flight]) 0 0 0 20000
             _ _ (pointToCartesian_lon0_lat0 0)
             (demo_gateway_answers _ _ _ _)).
  cbn [entries_of]. unfold flight_entry.
  rewrite high_data. cbn [bind].
  cbn [as_float flight_data.altitude flight_data.latitude flight_data.longitude].
  rewrite pointToCartesian_lon0_lat0. cbn [bind].
  rewrite distance_overflow; [reflexivity | |].
  - pose proof float_max_bounds as [Hmax _].
    rewrite Rabs_pos_eq by lra. lra.
  - pose proof float_max_bounds as [_ Hmax]. lra.
Qed.

(** In a world where every flight but [unresolved] resolves, the call
    returns when no altitude exceeds 1e150 feet. *)
Lemma demo_world_returns (flights : list Flight)
  (latitude longitude altitude radius_m : R) :
  Rabs altitude <= 1e150 ->
  Forall (fun flight =>
            forall fd, get_flight_data (Demo.api_with flights) flight = Some fd ->
                       Rabs (as_float (flight_data.altitude fd)) <= 1e150)
    flights ->
  exists aircraft_data,
    get_flights_with_distances (Demo.api_with flights) latitude longitude
      altitude radius_m = Ok aircraft_data
    /\ Forall2 (ranked_as (Demo.api_with flights) latitude longitude altitude)
         flights aircraft_data.
Proof.
  intros Halt Hall.
  apply get_flights_with_distances_returns; [apply demo_gateway_answers |].
  apply no_overflow_bounded; assumption.
Qed.

Lemma lost_world_bounded :
  Forall (fun flight =>
            forall fd,
              get_flight_data (Demo.api_with [Demo.unresolved; Lost.flight]) flight
              = Some fd ->
              Rabs (as_float (flight_data.altitude fd)) <= 1e150)
    [Demo.unresolved; Lost.flight].
Proof.
  constructor; [| constructor; [| constructor]].
  - intros fd Hfd. discriminate Hfd.
  - intros fd Hfd. rewrite lost_data in Hfd. injection Hfd as <-.
    cbn [flight_data.altitude as_float]. apply Rabs_0_small.
Qed.


Lemma demo_details_succeed (flights : list Flight) :
  details_succeed (Demo.api_with flights) Demo.heathrow_777 Demo.heathrow_777.
Proof. exists tt. split; reflexivity. Qed.

Lemma demo_no_overflow (latitude longitude altitude : R) :
  Rabs altitude <= 1e150 ->
  no_overflow Demo.api latitude longitude altitude
    [Demo.unresolved; Demo.heathrow_777].
Proof.
  intros Halt. apply no_overflow_bounded; [exact Halt |].
  constructor; [| constructor; [| constructor]].
  - intros fd Hfd. discriminate Hfd.
  - intros fd Hfd. unfold Demo.api in Hfd. rewrite demo_heathrow_data in Hfd.
    injection Hfd as <-. cbn [flight_data.altitude as_float].
    rewrite Rabs_pos_eq; lra.
Qed.

Lemma ranked_aircraft_sorted_stable_witness :
  exists aircraft_data ranked,
    get_flights_with_distances Demo.api 51.5 (-0.1) 0 20000 = Ok aircraft_data
    /\ ranked_aircraft Demo.api 51.5 (-0.1) 0 = Ok ranked
    /\ List.length aircraft_data = 2%nat
    /\ Permutation aircraft_data ranked
    /\ StronglySorted by_distance ranked.
Proof.
  destruct (demo_returns 51.5 (-0.1) 0 20000 Rabs_0_small) as (ad & Hget & _).
  destruct (ranked_aircraft_sorted_stable Demo.api 51.5 (-0.1) 0 tt
              [Demo.unresolved; Demo.heathrow_777] ad eq_refl eq_refl Hget)
    as (ranked & Hranked & Hall & Hperm & Hsorted & _).
  exists ad, ranked.
  split; [exact Hget |]. split; [exact Hranked |].
  split; [symmetry; apply (Forall2_length Hall) |].
  split; assumption.
Defined.

(** C1, as the claim states it, fails: a user at latitude 0, longitude 45
    and altitude 4.9e154 feet, an unresolvable flight listed before a
    resolved flight.  Each square of the resolved flight's distance fits a
    float but their sum does not, so its distance is +infinity as well, and
    the stable sort leaves the error entry ahead of the resolved entry. *)
Lemma error_record_before_resolved_counterexample :
  exists fd h,
    ranked_aircraft (Demo.api_with [Demo.unresolved; Lost.flight]) 0 45 4.9e154
    = Ok [(Inf, VNone, VStr "Error processing flight <N/A>");
          (Inf, VDict fd, VFloat h)].
Proof.
  destruct (heading_value 0 45 0 0) as (h & Hh & _).
  eexists _, h. unfold ranked_aircraft.
  rewrite (get_flights_with_distances_answered
             (Demo.api_with [Demo.unresolved; Lost.flight]) 0 45 4.9e154 20000
             _ _ (pointToCartesian_lon45_lat0 4.9e154)
             (demo_gateway_answers _ _ _ _)).
  cbn [entries_of]. unfold flight_entry.
  rewrite demo_unresolved_data, lost_data. cbn [bind].
  cbn [as_float flight_data.altitude flight_data.latitude flight_data.longitude].
  rewrite pointToCartesian_lon0_lat0. cbn [bind].
  rewrite distance_inf.
  - cbn [bind]. rewrite Hh. reflexivity.
  - destruct inv_sqrt2_facts as [Hcc [Hc0 Hc1]].
    pose proof float_max_bounds as [Hmax _].
    set (c := 1 / sqrt 2) in *. nra.
  - destruct inv_sqrt2_facts as [Hcc [Hc0 Hc1]].
    pose proof float_max_bounds as [Hmax _].
    set (c := 1 / sqrt 2) in *. nra.
  - pose proof float_max_bounds as [Hmax _]. lra.
  - destruct inv_sqrt2_facts as [Hcc [Hc0 Hc1]].
    pose proof float_max_bounds as [_ Hmax].
    set (c := 1 / sqrt 2) in *. nra.
Qed.

Lemma ranked_entry_layout_witness :
  exists aircraft_data,
    get_flights_with_distances Demo.api 51.5 (-0.1) 0 20000 = Ok aircraft_data
    /\ Forall (fun e => is_resolved e = true -> layout_distance_data_bearing e)
         aircraft_data.
Proof.
  destruct (demo_returns 51.5 (-0.1) 0 20000 Rabs_0_small) as (ad & Hget & _).
  destruct (ranked_entry_layout Demo.api 51.5 (-0.1) 0 20000 tt
              [Demo.unresolved; Demo.heathrow_777] ad eq_refl eq_refl Hget)
    as [Hlayout _].
  exists ad. split; assumption.
Defined.

(** C4, as the claim states it, fails: the entry of a resolved flight has the
    aircraft data in second place and the bearing in third place. *)
Lemma tuple_layout_counterexample :
  exists e,
    get_flights_with_distances (Demo.api_with [Demo.heathrow_777])
      51.5 (-0.1) 0 20000 = Ok [e]
    /\ is_resolved e = true
    /\ ~ layout_distance_bearing_data e.
Proof.
  destruct (get_flights_with_distances_returns
              (Demo.api_with [Demo.heathrow_777]) 51.5 (-0.1) 0 20000
              [Demo.heathrow_777] (demo_gateway_answers _ _ _ _))
    as (es & Hget & Hall).
  { apply no_overflow_bounded; [apply Rabs_0_small |].
    constructor; [| constructor].
    intros fd Hfd. rewrite demo_heathrow_data in Hfd. injection Hfd as <-.
    apply Rabs_35000_small. }
  inversion Hall as [| ? e ? es1 H1 Hall1]; subst.
  inversion Hall1; subst.
  exists e. split; [exact Hget |].
  apply ranked_as_shape in H1.
  rewrite demo_heathrow_data in H1.
  destruct H1 as [[Hnone _] | (fd & dist & h & _ & -> & _)]; [discriminate Hnone |].
  split; [reflexivity |].
  intros (b & d & Hb & _). discriminate Hb.
Qed.

Lemma ranked_observations_well_formed_witness :
  exists aircraft_data ranked,
    get_flights_with_distances Demo.api 51.5 (-0.1) 0 20000 = Ok aircraft_data
    /\ ranked_aircraft Demo.api 51.5 (-0.1) 0 = Ok ranked
    /\ Forall ranked_observation_inv aircraft_data
    /\ Forall ranked_observation_inv ranked.
Proof.
  destruct (demo_returns 51.5 (-0.1) 0 20000 Rabs_0_small) as (ad & Hget & _).
  destruct (ranked_observations_well_formed Demo.api 51.5 (-0.1) 0 tt
              [Demo.unresolved; Demo.heathrow_777] ad eq_refl eq_refl Hget)
    as (ranked & Hranked & Hinv & Hinv').
  exists ad, ranked. repeat split; assumption.
Defined.

Lemma detail_failure_is_per_item_witness :
  exists aircraft_data,
    get_flights_with_distances Demo.api 51.5 (-0.1) 0 20000 = Ok aircraft_data
    /\ List.length aircraft_data = 2%nat.
Proof.
  destruct (proj2 (detail_failure_is_per_item Demo.api 51.5 (-0.1) 0 20000) tt
              [Demo.unresolved; Demo.heathrow_777] eq_refl eq_refl
              (demo_no_overflow 51.5 (-0.1) 0 Rabs_0_small))
    as (aircraft_data & Hget & Hall).
  exists aircraft_data. split; [exact Hget |].
  symmetry. apply (Forall2_length Hall).
Defined.

(** C6, as the claim states it, fails: a user at altitude 1e300 feet, a
    flight whose detail fetch fails and a flight whose detail fetch
    succeeds.  The square in the distance of the second flight overflows,
    [math.pow] raises outside the per-item guard, and the whole call raises:
    no error record is returned and the other flight is not ranked. *)
Lemma detail_failure_batch_abort_counterexample :
  details_fail (Demo.api_with [Demo.unresolved; Lost.flight]) Demo.unresolved
  /\ (exists flight',
        details_succeed (Demo.api_with [Demo.unresolved; Lost.flight])
          Lost.flight flight')
  /\ get_flights_with_distances (Demo.api_with [Demo.unresolved; Lost.flight])
       0 0 1e300 20000
     = Raise (mk_exn Exception "Error fetching flight data: math range error").
Proof.
  split; [apply demo_unresolved_fails |].
  split; [exists Lost.flight, tt; split; reflexivity |].
  rewrite (get_flights_with_distances_answered
             (Demo.api_with [Demo.unresolved; Lost.flight]) 0 0 1e300 20000
             _ _ (pointToCartesian_lon0_lat0 1e300)
             (demo_gateway_answers _ _ _ _)).
  cbn [entries_of]. unfold flight_entry.
  rewrite demo_unresolved_data, lost_data. cbn [bind].
  cbn [as_float flight_data.altitude flight_data.latitude flight_data.longitude].
  rewrite pointToCartesian_lon0_lat0. cbn [bind].
  rewrite distance_overflow; [reflexivity | |].
  - pose proof float_max_bounds as [Hmax _].
    rewrite Rabs_left by lra. lra.
  - pose proof float_max_bounds as [_ Hmax]. lra.
Qed.

Lemma missing_attributes_default_witness :
  exists fd,
    get_flight_data Demo.api Demo.heathrow_777 = Some fd
    /\ flight_data.destination fd = "Unknown"%string
    /\ flight_data.heading fd = IntZero.
Proof.
  destruct (missing_attributes_default Demo.api Demo.heathrow_777
              Demo.heathrow_777 (demo_details_succeed _))
    as (fd & Hfd & _ & Hdest & _ & _ & _ & _ & _ & Hhead & _).
  exists fd. repeat split; assumption.
Defined.

(** C9, as the claim states it, fails: a flight whose detail fetch
    succeeds and whose altitude is 1e300 feet, seen from a user at
    (0, 0, 0).  Its record is extracted, with the defaults for the missing
    attributes, but the square in its distance overflows and the call
    raises: the flight is not ranked. *)
Lemma resolved_flight_not_ranked_counterexample :
  details_succeed (Demo.api_with [High.flight]) High.flight High.flight
  /\ get_flights_with_distances (Demo.api_with [High.flight]) 0 0 0 20000
     = Raise (mk_exn Exception "Error fetching flight data: math range error").
Proof.
  split; [exists tt; split; reflexivity | apply high_flight_fetch_raises].
Qed.

Lemma invalid_params_give_400_witness :
  (get_aircraft Demo.py Demo.api Demo.bad_request
   = ("Error: Invalid longitude, latitude, or altitude values"%string, 400%Z, [])
   /\ get_closest_aircraft Demo.py Demo.api Demo.bad_request
      = ("Error: Invalid longitude, latitude, or altitude values"%string, 400%Z, []))
  /\ validate_location_params Demo.py Demo.request = Ok (-0.1, 51.5, 0).
Proof.
  split.
  - apply (proj1 (invalid_params_give_400 Demo.py Demo.api Demo.bad_request)).
    left. reflexivity.
  - apply (proj2 (invalid_params_give_400 Demo.py Demo.api Demo.request));
      reflexivity.
Defined.

Lemma closest_none_resolved_witness :
  get_closest_aircraft Demo.py (Demo.api_with [Demo.unresolved]) Demo.request
  = ("No aircraft found within 10km of your location."%string, 200%Z,
     [("Content-Type", "text/plain")]%string).
Proof.
  apply (closest_none_resolved Demo.py (Demo.api_with [Demo.unresolved])
           Demo.request (-0.1) 51.5 0 tt [Demo.unresolved]).
  - reflexivity.
  - reflexivity.
  - reflexivity.
  - constructor; [| constructor].
    left. eexists. reflexivity.
Defined.

Lemma empty_listing_is_prompt_only_witness :
  get_aircraft Demo.py (Demo.api_with []) Demo.request
  = (prompt, 200%Z, [("Content-Type", "text/plain")]%string).
Proof.
  apply (empty_listing_is_prompt_only Demo.py (Demo.api_with []) Demo.request
           (-0.1) 51.5 0 tt); reflexivity.
Defined.

(** ** Further properties of the distance *)

Lemma square_of_difference_sym (a b : R) :
  square_of_difference b a = square_of_difference a b.
Proof.
  unfold square_of_difference, math.pow.
  rewrite (Rabs_minus_sym b a).
  replace ((b - a) ^ 2) with ((a - b) ^ 2) by ring.
  reflexivity.
Qed.

(** A finite distance is the root of the sum of the squares, which fits a
    float. *)
Lemma distance_finite_inv (x1 y1 z1 x2 y2 z2 d : R) :
  distance x1 y1 z1 x2 y2 z2 = Ok (Finite d) ->
  (x2 - x1) ^ 2 + (y2 - y1) ^ 2 + (z2 - z1) ^ 2 <= float_max
  /\ d = sqrt ((x2 - x1) ^ 2 + (y2 - y1) ^ 2 + (z2 - z1) ^ 2).
Proof.
  unfold distance. intros H.
  destruct (square_of_difference_cases x2 x1)
    as [[_ Hx] | [[Hx' Hx] | (_ & _ & Hx)]];
    rewrite Hx in H; cbn [bind] in H; try discriminate H;
  (destruct (square_of_difference_cases y2 y1)
     as [[_ Hy] | [[Hy' Hy] | (_ & _ & Hy)]];
   rewrite Hy in H; cbn [bind] in H; try discriminate H);
  (destruct (square_of_difference_cases z2 z1)
     as [[_ Hz] | [[Hz' Hz] | (_ & _ & Hz)]];
   rewrite Hz in H; cbn [bind float_add math.sqrt_float] in H;
   try discriminate H).
  - destruct (Rlt_dec float_max ((x2 - x1) ^ 2 + (y2 - y1) ^ 2));
      cbn [float_add math.sqrt_float] in H; discriminate H.
  - destruct (Rlt_dec float_max ((x2 - x1) ^ 2 + (y2 - y1) ^ 2)) as [Hxy | Hxy];
      [discriminate H |].
    unfold float_add in H.
    destruct (Rlt_dec float_max
                ((x2 - x1) ^ 2 + (y2 - y1) ^ 2 + (z2 - z1) ^ 2)) as [Hxyz | Hxyz];
      [discriminate H |].
    cbn [math.sqrt_float] in H. unfold math.sqrt in H.
    destruct (Rlt_dec ((x2 - x1) ^ 2 + (y2 - y1) ^ 2 + (z2 - z1) ^ 2) 0)
      as [Hneg | _]; cbn [bind] in H; [discriminate H |].
    injection H as <-. split; [lra | reflexivity].
Qed.

(** X1: [distance] gives the same outcome, value or exception, when its
    two points are swapped; the only exception it raises is
    [OverflowError("math range error")]; and when it returns, the value,
    which can be [inf], is never negative. *)
Theorem distance_symmetric_nonneg (x1 y1 z1 x2 y2 z2 : R) :
  distance x2 y2 z2 x1 y1 z1 = distance x1 y1 z1 x2 y2 z2
  /\ (distance x1 y1 z1 x2 y2 z2
      = Raise (mk_exn OverflowError "math range error")
      \/ exists d, distance x1 y1 z1 x2 y2 z2 = Ok d /\ float_le (Finite 0) d).
Proof.
  split.
  - unfold distance.
    rewrite (square_of_difference_sym x1 x2), (square_of_difference_sym y1 y2),
      (square_of_difference_sym z1 z2).
    reflexivity.
  - apply distance_cases.
Qed.

(** X2: in exact arithmetic (the rounding and the underflow of the floats
    are not modelled), [distance] returns 0 exactly when the two points
    are the same. *)
Theorem distance_zero_iff_same_point (x1 y1 z1 x2 y2 z2 : R) :
  distance x1 y1 z1 x2 y2 z2 = Ok (Finite 0) <-> (x1 = x2 /\ y1 = y2 /\ z1 = z2).
Proof.
  split.
  - intros H. apply distance_finite_inv in H. destruct H as [_ H].
    symmetry in H.
    pose proof (pow2_ge_0 (x2 - x1)). pose proof (pow2_ge_0 (y2 - y1)).
    pose proof (pow2_ge_0 (z2 - z1)).
    apply sqrt_eq_0 in H; [| lra].
    repeat split; nra.
  - intros (-> & -> & ->).
    pose proof float_max_bounds as [Hmax _].
    rewrite distance_finite.
    + replace ((x2 - x2) ^ 2 + (y2 - y2) ^ 2 + (z2 - z2) ^ 2) with 0 by ring.
      rewrite sqrt_0. reflexivity.
    + replace ((x2 - x2) ^ 2 + (y2 - y2) ^ 2 + (z2 - z2) ^ 2) with 0 by ring.
      lra.
Qed.

Lemma sqrt_sum_squares_triangle (a b c u v w : R) :
  sqrt ((a + u) ^ 2 + (b + v) ^ 2 + (c + w) ^ 2)
  <= sqrt (a ^ 2 + b ^ 2 + c ^ 2) + sqrt (u ^ 2 + v ^ 2 + w ^ 2).
Proof.
  set (p := a ^ 2 + b ^ 2 + c ^ 2). set (q := u ^ 2 + v ^ 2 + w ^ 2).
  assert (Hp : 0 <= p) by (unfold p; nra).
  assert (Hq : 0 <= q) by (unfold q; nra).
  pose proof (sqrt_pos p) as Hsp. pose proof (sqrt_pos q) as Hsq.
  assert (Hpp : sqrt p * sqrt p = p) by (apply sqrt_sqrt; exact Hp).
  assert (Hqq : sqrt q * sqrt q = q) by (apply sqrt_sqrt; exact Hq).
  assert (Hcs : (a * u + b * v + c * w) ^ 2 <= p * q).
  { unfold p, q.
    pose proof (pow2_ge_0 (a * v - b * u)).
    pose proof (pow2_ge_0 (a * w - c * u)).
    pose proof (pow2_ge_0 (b * w - c * v)). nra. }
  assert (Hdot : a * u + b * v + c * w <= sqrt p * sqrt q).
  { destruct (Rle_dec (a * u + b * v + c * w) 0) as [Hneg | Hpos]; [nra |].
    apply Rnot_le_lt in Hpos.
    apply Rsqr_incr_0_var; [| nra].
    unfold Rsqr. nra. }
  rewrite <- (sqrt_square (sqrt p + sqrt q)) by lra.
  apply sqrt_le_1_alt. unfold p, q in *. nra.
Qed.

(** X3: in exact arithmetic (rounding is not modelled), [distance]
    satisfies the triangle inequality: whenever the three distances
    between three points are returned and finite, the way from the first
    point to the third is not longer than the way through the second. *)
Theorem distance_triangle (x1 y1 z1 x2 y2 z2 x3 y3 z3 d12 d23 d13 : R) :
  distance x1 y1 z1 x2 y2 z2 = Ok (Finite d12) ->
  distance x2 y2 z2 x3 y3 z3 = Ok (Finite d23) ->
  distance x1 y1 z1 x3 y3 z3 = Ok (Finite d13) ->
  d13 <= d12 + d23.
Proof.
  intros H12 H23 H13.
  apply distance_finite_inv in H12, H23, H13.
  destruct H12 as [_ ->], H23 as [_ ->], H13 as [_ ->].
  replace (x3 - x1) with ((x2 - x1) + (x3 - x2)) by ring.
  replace (y3 - y1) with ((y2 - y1) + (y3 - y2)) by ring.
  replace (z3 - z1) with ((z2 - z1) + (z3 - z2)) by ring.
  apply sqrt_sum_squares_triangle.
Qed.

(** ** Further properties of the conversion *)

Lemma radians_plus_turn (x : R) : math.radians (x + 360) = math.radians x + 2 * PI.
Proof. unfold math.radians. pose proof PI_RGT_0. field. Qed.

Lemma radians_opp (x : R) : math.radians (- x) = - math.radians x.
Proof. unfold math.radians. ring. Qed.

Lemma cos_plus_turn (x : R) : cos (x + 2 * PI) = cos x.
Proof. rewrite cos_plus, cos_2PI, sin_2PI. ring. Qed.

Lemma sin_plus_turn (x : R) : sin (x + 2 * PI) = sin x.
Proof. rewrite sin_plus, cos_2PI, sin_2PI. ring. Qed.

(** X4: a longitude given as [lon + 360] is the same point: the
    conversion does not depend on the convention for longitudes. *)
Theorem pointToCartesian_longitude_turn (longitude latitude altitude : R) :
  pointToCartesian (longitude + 360) latitude altitude
  = pointToCartesian longitude latitude altitude.
Proof.
  rewrite !pointToCartesian_value. cbv zeta.
  rewrite radians_plus_turn, cos_plus_turn, sin_plus_turn. reflexivity.
Qed.

(** X5: mirroring the latitude mirrors the point in the equatorial
    plane, and mirroring the longitude mirrors it in the plane of the prime
    meridian. *)
Theorem pointToCartesian_mirror (longitude latitude altitude : R) :
  exists x y z,
    pointToCartesian longitude latitude altitude = Ok (x, y, z)
    /\ pointToCartesian longitude (- latitude) altitude = Ok (x, y, - z)
    /\ pointToCartesian (- longitude) latitude altitude = Ok (x, - y, z).
Proof.
  rewrite !pointToCartesian_value. cbv zeta.
  do 3 eexists. split; [reflexivity |].
  rewrite !radians_opp, !cos_neg, !sin_neg.
  replace ((- sin (math.radians latitude)) ^ 2)
    with (sin (math.radians latitude) ^ 2) by ring.
  split; apply Ok_triple; ring.
Qed.

(** X6: on the equator the point lies in the equatorial plane, at the
    semi-major axis plus the altitude in metres from the Earth's axis, in
    the direction of the longitude. *)
Theorem pointToCartesian_equator (longitude altitude : R) :
  pointToCartesian longitude 0 altitude
  = Ok ((6378137 + altitude * 0.3048) * cos (math.radians longitude),
        (6378137 + altitude * 0.3048) * sin (math.radians longitude),
        0).
Proof.
  rewrite pointToCartesian_value. cbv zeta.
  rewrite radians_0, sin_0, cos_0.
  replace (1 - 0.006694379990197619 * 0 ^ 2) with 1 by ring.
  rewrite sqrt_1. apply Ok_triple; field.
Qed.

(** X7: in exact arithmetic (the rounding of pi/2 and of its cosine is not
    modelled), at latitude 90 the point lies on the Earth's axis, whatever
    the longitude, above the altitude in metres. *)
Theorem pointToCartesian_pole (longitude altitude : R) :
  exists z, pointToCartesian longitude 90 altitude = Ok (0, 0, z)
            /\ 0 < z - altitude * 0.3048.
Proof.
  rewrite pointToCartesian_value. cbv zeta.
  rewrite radians_90, cos_PI2, sin_PI2.
  eexists. split.
  - apply Ok_triple; [ring | ring | reflexivity].
  - pose proof (curvature_radicand_pos (PI / 2)) as Hpos.
    rewrite sin_PI2 in Hpos. apply sqrt_lt_R0 in Hpos.
    assert (0 < 6378137 / sqrt (1 - 0.006694379990197619 * 1 ^ 2)).
    { apply Rdiv_lt_0_compat; lra. }
    lra.
Qed.

(** X8: in exact arithmetic, two points above the same place are apart by
    exactly the difference of their altitudes, converted to metres,
    whenever the square of that difference fits a float. *)
Theorem altitude_difference_is_distance (longitude latitude alt1 alt2 : R) :
  ((alt2 - alt1) * 0.3048) ^ 2 <= float_max ->
  exists x1 y1 z1 x2 y2 z2,
    pointToCartesian longitude latitude alt1 = Ok (x1, y1, z1)
    /\ pointToCartesian longitude latitude alt2 = Ok (x2, y2, z2)
    /\ distance x1 y1 z1 x2 y2 z2 = Ok (Finite (Rabs (alt2 - alt1) * 0.3048)).
Proof.
  intros Hfits.
  rewrite !pointToCartesian_value. cbv zeta.
  do 6 eexists. split; [reflexivity |]. split; [reflexivity |].
  set (phi := math.radians latitude). set (lam := math.radians longitude).
  set (n := 6378137 / sqrt _).
  pose proof (sin2_cos2 phi) as Hphi. pose proof (sin2_cos2 lam) as Hlam.
  unfold Rsqr in Hphi, Hlam.
  match goal with
  | |- distance ?a ?b ?c ?d ?e ?f = _ =>
      assert (Hsum : (d - a) ^ 2 + (e - b) ^ 2 + (f - c) ^ 2
                     = ((alt2 - alt1) * 0.3048) ^ 2)
  end.
  { replace (((alt2 - alt1) * 0.3048) ^ 2)
      with (((alt2 - alt1) * 0.3048) ^ 2
            * ((cos phi * cos phi) * (sin lam * sin lam + cos lam * cos lam)
               + sin phi * sin phi)).
    - ring.
    - rewrite Hlam.
      replace (cos phi * cos phi * 1 + sin phi * sin phi)
        with (sin phi * sin phi + cos phi * cos phi) by ring.
      rewrite Hphi. ring. }
  rewrite distance_finite by (rewrite Hsum; exact Hfits).
  rewrite Hsum. do 2 f_equal.
  replace (((alt2 - alt1) * 0.3048) ^ 2) with (Rsqr ((alt2 - alt1) * 0.3048))
    by (unfold Rsqr; ring).
  rewrite sqrt_Rsqr_abs, Rabs_mult. f_equal. apply Rabs_pos_eq. lra.
Qed.

(** ** Further properties of the bearing *)

Lemma floor_IZR (k : Z) : floor (IZR k) = k.
Proof.
  unfold floor. symmetry. apply Int_part_spec. lra.
Qed.

Lemma float_mod_360_of_turn_plus (x : R) :
  0 <= x < 360 -> float_mod (x + 360) 360 = Ok x.
Proof.
  intros Hx. rewrite float_mod_value by lra.
  replace (x + 360) with (x + 360 * IZR 1) by ring.
  rewrite rmod_plus_turns by lra.
  unfold Spec.rmod. f_equal.
  replace (Int_part (x / 360)) with 0%Z; [ring |].
  apply Int_part_spec. lra.
Qed.

Lemma atan2_0_pos (x : R) : 0 < x -> math.atan2 0 x = 0.
Proof.
  intros Hx. unfold math.atan2.
  destruct (Rlt_dec 0 x) as [_ | H]; [| contradiction].
  replace (0 / x) with 0 by (field; lra). apply atan_0.
Qed.

Lemma atan2_0_neg (x : R) : x < 0 -> math.atan2 0 x = PI.
Proof.
  intros Hx. unfold math.atan2.
  destruct (Rlt_dec 0 x) as [H | _]; [lra |].
  destruct (Rlt_dec x 0) as [_ | H]; [| contradiction].
  destruct (Rle_dec 0 0) as [_ | H]; [| lra].
  replace (0 / x) with 0 by (field; lra). rewrite atan_0. ring.
Qed.

Lemma atan2_0_0 : math.atan2 0 0 = 0.
Proof.
  unfold math.atan2.
  destruct (Rlt_dec 0 0) as [H | _]; [lra |]. reflexivity.
Qed.

(** The two arguments of [atan2] when both points have one longitude. *)
Lemma heading_same_longitude (user_lat lon aircraft_lat : R) :
  calculate_heading_to_aircraft user_lat lon aircraft_lat lon
  = float_mod
      (math.degrees
         (math.atan2 0 (sin (math.radians aircraft_lat - math.radians user_lat)))
       + 360) 360.
Proof.
  unfold calculate_heading_to_aircraft. cbv zeta.
  replace (math.radians lon - math.radians lon) with 0 by ring.
  rewrite sin_0, cos_0, sin_minus.
  f_equal. f_equal. f_equal. f_equal; ring.
Qed.

(** X9: the bearing from a point to itself is 0. *)
Theorem bearing_to_self (latitude longitude : R) :
  calculate_heading_to_aircraft latitude longitude latitude longitude = Ok 0.
Proof.
  rewrite heading_same_longitude.
  replace (math.radians latitude - math.radians latitude) with 0 by ring.
  rewrite sin_0, atan2_0_0. unfold math.degrees.
  replace (0 * (180 / PI)) with 0 by (pose proof PI_RGT_0; field; lra).
  apply float_mod_360_of_turn_plus. lra.
Qed.

(** X10: in exact arithmetic (rounding is not modelled), an aircraft on
    the user's meridian is due north (bearing 0) when its latitude is
    higher and due south (bearing 180) when it is lower. *)
Theorem bearing_along_meridian (user_lat lon aircraft_lat : R) :
  - 180 < aircraft_lat - user_lat < 180 ->
  aircraft_lat <> user_lat ->
  calculate_heading_to_aircraft user_lat lon aircraft_lat lon
  = Ok (if Rlt_dec user_lat aircraft_lat then 0 else 180).
Proof.
  intros Hrange Hneq. rewrite heading_same_longitude.
  pose proof PI_RGT_0 as Hpi.
  assert (Hdiff : math.radians aircraft_lat - math.radians user_lat
                  = (aircraft_lat - user_lat) * (PI / 180))
    by (unfold math.radians; ring).
  destruct (Rlt_dec user_lat aircraft_lat) as [Hnorth | Hsouth].
  - rewrite atan2_0_pos.
    + unfold math.degrees.
      replace (0 * (180 / PI)) with 0 by (field; lra).
      apply float_mod_360_of_turn_plus. lra.
    + apply sin_gt_0; rewrite Hdiff; nra.
  - rewrite atan2_0_neg.
    + unfold math.degrees.
      replace (PI * (180 / PI)) with 180 by (field; lra).
      apply float_mod_360_of_turn_plus. lra.
    + apply sin_lt_0_var; rewrite Hdiff; nra.
Qed.

(** X11: the bearing does not change when a longitude is given one full
    turn further, on either side. *)
Theorem bearing_longitude_turn (user_lat user_lon aircraft_lat aircraft_lon : R) :
  calculate_heading_to_aircraft user_lat user_lon aircraft_lat (aircraft_lon + 360)
  = calculate_heading_to_aircraft user_lat user_lon aircraft_lat aircraft_lon
  /\ calculate_heading_to_aircraft user_lat (user_lon + 360) aircraft_lat aircraft_lon
     = calculate_heading_to_aircraft user_lat user_lon aircraft_lat aircraft_lon.
Proof.
  unfold calculate_heading_to_aircraft. cbv zeta.
  rewrite !radians_plus_turn. split.
  - replace (math.radians aircraft_lon + 2 * PI - math.radians user_lon)
      with (math.radians aircraft_lon - math.radians user_lon + 2 * PI) by ring.
    rewrite cos_plus_turn, sin_plus_turn. reflexivity.
  - set (d := math.radians aircraft_lon - math.radians user_lon).
    replace (math.radians aircraft_lon - (math.radians user_lon + 2 * PI))
      with (d - 2 * PI) by (unfold d; ring).
    rewrite <- (cos_plus_turn (d - 2 * PI)), <- (sin_plus_turn (d - 2 * PI)).
    replace (d - 2 * PI + 2 * PI) with d by ring. reflexivity.
Qed.

Lemma float_mod_360_id (x : R) : 0 <= x < 360 -> float_mod x 360 = Ok x.
Proof.
  intros Hx. rewrite float_mod_value by lra.
  unfold Spec.rmod. f_equal.
  replace (Int_part (x / 360)) with 0%Z; [ring |].
  apply Int_part_spec. lra.
Qed.

(** X12: in exact arithmetic (rounding is not modelled), between two
    points of the equator less than half a turn apart, the bearing is due
    east (90) when the aircraft lies to the east and due west (270) when it
    lies to the west. *)
Theorem bearing_along_equator (user_lon aircraft_lon : R) :
  - 180 < aircraft_lon - user_lon < 180 ->
  aircraft_lon <> user_lon ->
  calculate_heading_to_aircraft 0 user_lon 0 aircraft_lon
  = Ok (if Rlt_dec user_lon aircraft_lon then 90 else 270).
Proof.
  intros Hrange Hneq. unfold calculate_heading_to_aircraft. cbv zeta.
  pose proof PI_RGT_0 as Hpi.
  rewrite radians_0, sin_0, cos_0.
  set (d := math.radians aircraft_lon - math.radians user_lon).
  assert (Hd : d = (aircraft_lon - user_lon) * (PI / 180))
    by (unfold d, math.radians; ring).
  replace (1 * 0 - 0 * 1 * cos d) with 0 by ring.
  replace (sin d * 1) with (sin d) by ring.
  unfold math.atan2, math.degrees.
  destruct (Rlt_dec 0 0) as [H | _]; [lra |].
  destruct (Rlt_dec user_lon aircraft_lon) as [Heast | Hwest].
  - assert (Hsin : 0 < sin d) by (apply sin_gt_0; rewrite Hd; nra).
    destruct (Rlt_dec 0 (sin d)) as [_ | H]; [| contradiction].
    replace (PI / 2 * (180 / PI) + 360) with 450 by (field; lra).
    replace 450 with (90 + 360) by ring.
    apply float_mod_360_of_turn_plus. lra.
  - assert (Hsin : sin d < 0) by (apply sin_lt_0_var; rewrite Hd; nra).
    destruct (Rlt_dec 0 (sin d)) as [H | _]; [lra |].
    destruct (Rlt_dec (sin d) 0) as [_ | H]; [| contradiction].
    replace (- (PI / 2) * (180 / PI) + 360) with 270 by (field; lra).
    apply float_mod_360_id. lra.
Qed.

(** ** Further properties of the ranking and of the handlers *)

Section MoreRanking.
Context (api : FlightRadar24API).

(** A call that returns has computed the distance of every resolved
    flight. *)
Lemma returns_no_overflow (latitude longitude altitude : R)
  (flights : list Flight) (aircraft_data : list entry) :
  Forall2 (ranked_as api latitude longitude altitude) flights aircraft_data ->
  no_overflow api latitude longitude altitude flights.
Proof.
  unfold no_overflow. induction 1 as [| f e fl es Hfe _ IH]; constructor.
  - intros fd Hfd.
    destruct (ranked_as_resolved api _ _ _ _ _ _ Hfe Hfd)
      as (ux & uy & uz & ax & ay & az & dist & h & Hu & Ha & Hd & _).
    exists ux, uy, uz, ax, ay, az, dist. repeat split; assumption.
  - exact IH.
Qed.

(** A loop that raises has met a resolved flight whose distance
    overflows. *)
Lemma entries_of_raise_flight (latitude longitude altitude : R)
  (user_x user_y user_z : R) (flights : list Flight) (ex : pyexn) :
  pointToCartesian longitude latitude altitude = Ok (user_x, user_y, user_z) ->
  entries_of api (user_x, user_y, user_z) latitude longitude flights = Raise ex ->
  exists flight fd,
    In flight flights
    /\ get_flight_data api flight = Some fd
    /\ distance_overflows latitude longitude altitude fd.
Proof.
  intros Huser Hes.
  destruct (entries_of_raise api _ _ _ _ _ Hes) as [_ Hex].
  apply Exists_exists in Hex as (flight & Hin & Hraise).
  destruct (flight_entry_outcome api user_x user_y user_z latitude longitude flight)
    as [[_ H] | (fd & ax & ay & az & Hfd & Hair
                 & [(d & h & _ & _ & _ & _ & H) | [Hover _]])];
    try (rewrite H in Hraise; discriminate Hraise).
  exists flight, fd. split; [exact Hin |]. split; [exact Hfd |].
  exists user_x, user_y, user_z, ax, ay, az. repeat split; assumption.
Qed.


(** X14: whenever the call returns, a flight whose detail fetch succeeds
    but which has no latitude, longitude and altitude is ranked as if it
    were at longitude 0, latitude 0 and altitude 0: its distance is the
    distance from the user to the point (6378137, 0, 0) and its bearing is
    the bearing to (0, 0). *)
Theorem missing_position_is_origin (user_lat user_lon user_alt radius_m : R)
  (flights : list Flight) (flight flight' : Flight)
  (aircraft_data : list entry) :
  gateway_answers api user_lat user_lon radius_m flights ->
  In flight flights ->
  details_succeed api flight flight' ->
  latitude flight' = None ->
  longitude flight' = None ->
  altitude flight' = None ->
  get_flights_with_distances api user_lat user_lon user_alt radius_m
  = Ok aircraft_data ->
  exists user_x user_y user_z dist fd h,
    pointToCartesian user_lon user_lat user_alt = Ok (user_x, user_y, user_z)
    /\ distance user_x user_y user_z 6378137 0 0 = Ok dist
    /\ calculate_heading_to_aircraft user_lat user_lon 0 0 = Ok h
    /\ In (dist, VDict fd, VFloat h) aircraft_data.
Proof.
  intros Hgw Hin Hok Hlat Hlon Halt Hget.
  pose proof (get_flights_with_distances_spec api _ _ _ _ _ _ Hgw Hget) as Hall.
  destruct (Forall2_In_l _ _ _ _ Hall Hin) as (e & He & Hfe).
  pose proof (get_flight_data_succeed api _ _ Hok) as Hfd.
  rewrite Hlat, Hlon, Halt in Hfd. cbn [getattr_num option_map getattr] in Hfd.
  destruct (ranked_as_resolved api _ _ _ _ _ _ Hfe Hfd)
    as (ux & uy & uz & ax & ay & az & dist & h & Hu & Ha & Hd & Hh & ->).
  cbn [flight_data.longitude flight_data.latitude flight_data.altitude as_float]
    in Ha, Hh.
  rewrite pointToCartesian_lon0_lat0 in Ha. injection Ha as <- <- <-.
  replace (6378137 + 0 * 0.3048) with 6378137 in Hd by ring.
  exists ux, uy, uz, dist. eexists. exists h.
  split; [exact Hu |]. split; [exact Hd |]. split; [exact Hh | exact He].
Qed.



End MoreRanking.

Section MoreHandlers.
Context (py : PyRuntime) (api : FlightRadar24API).

(** X15: for finite latitude, longitude and altitude,
    [get_flights_with_distances] raises in two cases only: the gateway's
    bounds or list query raises, or the gateway answers and the distance of
    a flight whose detail fetch succeeded overflows.  It then always raises
    an exception of class [Exception] whose message is
    [Error fetching flight data: ] followed by the message of the cause:
    the gateway's message, whatever the class of the gateway's exception,
    or [math range error]. *)
Theorem fetch_raises_only_wrapped (latitude longitude altitude radius_m : R)
  (e : pyexn) :
  get_flights_with_distances api latitude longitude altitude radius_m = Raise e ->
  (exists e0,
     gateway_raises api latitude longitude radius_m e0
     /\ e = mk_exn Exception ("Error fetching flight data: " ++ exn_msg e0)%string)
  \/ (exists flights flight fd,
        gateway_answers api latitude longitude radius_m flights
        /\ In flight flights
        /\ get_flight_data api flight = Some fd
        /\ distance_overflows latitude longitude altitude fd
        /\ e = mk_exn Exception "Error fetching flight data: math range error").
Proof.
  intros Hraise.
  destruct (get_bounds_by_point api latitude longitude radius_m)
    as [bounds | e0] eqn:Hbounds.
  2:{ left. exists e0.
      assert (Hgw : gateway_raises api latitude longitude radius_m e0)
        by (left; exact Hbounds).
      split; [exact Hgw |].
      rewrite (get_flights_with_distances_raise api _ _ _ _ e0 Hgw) in Hraise.
      injection Hraise as <-. reflexivity. }
  destruct (get_flights api bounds) as [flights | e0] eqn:Hflights.
  2:{ left. exists e0.
      assert (Hgw : gateway_raises api latitude longitude radius_m e0)
        by (right; exists bounds; split; assumption).
      split; [exact Hgw |].
      rewrite (get_flights_with_distances_raise api _ _ _ _ e0 Hgw) in Hraise.
      injection Hraise as <-. reflexivity. }
  right.
  assert (Hgw : gateway_answers api latitude longitude radius_m flights)
    by (exists bounds; split; assumption).
  destruct (pointToCartesian_total longitude latitude altitude)
    as (ux & uy & uz & Huser).
  rewrite (get_flights_with_distances_answered api _ _ _ _ _ _ Huser Hgw)
    in Hraise.
  destruct (entries_of api (ux, uy, uz) latitude longitude flights)
    as [es | ex] eqn:Hes; [discriminate Hraise |].
  destruct (entries_of_raise api _ _ _ _ _ Hes) as [-> _].
  injection Hraise as <-.
  destruct (entries_of_raise_flight api _ _ _ _ _ _ _ _ Huser Hes)
    as (flight & fd & Hin & Hfd & Hover).
  exists flights, flight, fd. repeat split; assumption.
Qed.

(** X16: with valid parameters, a failure of the gateway is answered with
    status 500 and the body [Error: Error fetching flight data: ] followed
    by the gateway's message, on both routes; this is so even when the
    gateway's exception is a [ValueError]. *)
Theorem gateway_failure_gives_500 (request : Request)
  (longitude latitude altitude : R) (e : pyexn) :
  validate_location_params py request = Ok (longitude, latitude, altitude) ->
  (gateway_raises api latitude longitude 20000 e ->
   get_aircraft py api request
   = (("Error: Error fetching flight data: " ++ exn_msg e)%string, 500%Z, []))
  /\ (gateway_raises api latitude longitude 10000 e ->
      get_closest_aircraft py api request
      = (("Error: Error fetching flight data: " ++ exn_msg e)%string, 500%Z, [])).
Proof.
  intros Hvalid.
  destruct (handlers_fetch_raised py api request _ _ _ e Hvalid)
    as [Hlist Hclosest].
  split; intros Hgw.
  - apply Hlist. apply get_flights_with_distances_raise. exact Hgw.
  - apply Hclosest. apply get_flights_with_distances_raise. exact Hgw.
Qed.

Lemma validate_cases (request : Request) :
  (exists longitude latitude altitude,
     validate_location_params py request = Ok (longitude, latitude, altitude)
     /\ py_float py (args_get request "longitude") = Ok longitude
     /\ py_float py (args_get request "latitude") = Ok latitude
     /\ ((args_get request "altitude" = None /\ altitude = 0)
         \/ exists s, args_get request "altitude" = Some s
                      /\ float_of_string py s = Some altitude)
     /\ ~ invalid_location_params py request)
  \/ (validate_location_params py request
      = Raise (mk_exn ValueError invalid_params_msg)
      /\ invalid_location_params py request).
Proof.
  unfold validate_location_params, invalid_location_params, rejected, py_float.
  destruct (args_get request "longitude") as [slon |];
    [destruct (float_of_string py slon) as [lon |] eqn:Hlon |];
    cbn [bind exn_class_of];
    try (right; split; [reflexivity | left; solve [assumption | exact I | reflexivity]]).
  destruct (args_get request "latitude") as [slat |];
    [destruct (float_of_string py slat) as [lat |] eqn:Hlat |];
    cbn [bind exn_class_of];
    try (right; split; [reflexivity | right; left; solve [assumption | exact I | reflexivity]]).
  destruct (args_get request "altitude") as [salt |];
    [destruct (float_of_string py salt) as [alt |] eqn:Halt |];
    cbn [bind exn_class_of].
  - left. exists lon, lat, alt. repeat split.
    + right. exists salt. split; [reflexivity | exact Halt].
    + intros [H | [H | (s & Hs & Hnone)]]; congruence.
  - right. split; [reflexivity |]. right. right. exists salt.
    split; [reflexivity | exact Halt].
  - left. exists lon, lat, 0. repeat split.
    + left. split; reflexivity.
    + intros [H | [H | (s & Hs & Hnone)]]; congruence.
Qed.

(** X17: [validate_location_params] returns the three numbers exactly when
    the longitude and the latitude are present and numbers and the altitude
    is absent (then 0) or a number; in every other case it raises
    [ValueError] with the fixed message, and it raises nothing else. *)
Theorem validate_location_params_outcomes (request : Request) :
  (forall longitude latitude altitude,
     validate_location_params py request = Ok (longitude, latitude, altitude)
     <-> (py_float py (args_get request "longitude") = Ok longitude
          /\ py_float py (args_get request "latitude") = Ok latitude
          /\ ((args_get request "altitude" = None /\ altitude = 0)
              \/ exists s, args_get request "altitude" = Some s
                           /\ float_of_string py s = Some altitude)))
  /\ (forall e,
        validate_location_params py request = Raise e ->
        e = mk_exn ValueError "Invalid longitude, latitude, or altitude values"
        /\ invalid_location_params py request).
Proof.
  split.
  - intros lon lat alt. split.
    + intros Hok.
      destruct (validate_cases request)
        as [(lon' & lat' & alt' & Hv & Hlon & Hlat & Halt & _) | [Hv _]];
        rewrite Hv in Hok; [| discriminate Hok].
      injection Hok as <- <- <-. repeat split; assumption.
    + intros (Hlon & Hlat & Halt). unfold validate_location_params.
      rewrite Hlon, Hlat. cbn [bind].
      destruct Halt as [[-> ->] | (s & -> & Hs)]; [reflexivity |].
      unfold py_float. rewrite Hs. reflexivity.
  - intros e He.
    destruct (validate_cases request)
      as [(lon & lat & alt & Hv & _) | [Hv Hinv]];
      rewrite Hv in He; [discriminate He |].
    injection He as <-. split; [reflexivity | exact Hinv].
Qed.

End MoreHandlers.

(** ** What the two routes render *)

Lemma valid_aircraft_of_resolved (aircraft_data : list entry) :
  valid_aircraft_of aircraft_data
  = map dist_and_data (filter is_resolved aircraft_data).
Proof.
  induction aircraft_data as [| [[dist fdv] x] rest IH]; [reflexivity |].
  cbn [valid_aircraft_of filter]. unfold is_resolved at 1. cbn [item1 fst snd].
  destruct fdv; cbn [map]; rewrite IH; reflexivity.
Qed.

Lemma list_sort_head_first_minimum {A : Type} (key : A -> pyfloat)
  (x : A) (l : list A) :
  exists m rest,
    list_sort key (x :: l) = m :: rest /\ first_minimum key m (x :: l).
Proof.
  revert x. induction l as [| y l IH]; intros x.
  - exists x, []. split; [reflexivity |].
    exists [], []. repeat split; constructor.
  - destruct (IH y) as (m & rest & Hsort & pre & post & Hl & Hpre & Hpost).
    cbn [list_sort] in *. rewrite Hsort. cbn [insert_sorted].
    destruct (float_lt (key m) (key x)) eqn:Hlt.
    + exists m, (insert_sorted key x rest). split; [reflexivity |].
      exists (x :: pre), post. rewrite Hl. split; [reflexivity |].
      split; [constructor; assumption | exact Hpost].
    + exists x, (m :: rest). split; [reflexivity |].
      exists [], (y :: l). split; [reflexivity |]. split; [constructor |].
      apply float_not_lt_le in Hlt.
      rewrite Hl. apply Forall_app. split; [| constructor].
      * eapply Forall_impl; [| exact Hpre].
        intros e He. apply float_lt_le in He.
        eapply float_le_trans; eassumption.
      * exact Hlt.
      * eapply Forall_impl; [| exact Hpost].
        intros e He. eapply float_le_trans; eassumption.
Qed.

Lemma str_join_strings (sep : string) (lines : list string) :
  exists s, str_join sep (map VStr lines) = Ok s.
Proof.
  induction lines as [| line rest IH]; [exists EmptyString; reflexivity |].
  cbn [map str_join]. destruct IH as (tl & Htl).
  destruct rest as [| line' rest'].
  - exists line. reflexivity.
  - cbn [map] in *. rewrite Htl. cbn [bind]. eexists. reflexivity.
Qed.

Section Rendering.
Context (py : PyRuntime) (api : FlightRadar24API).

Lemma output_string_error_record (flight : Flight) :
  output_string py (error_record flight)
  = Ok (VStr ("Error processing flight " ++ flight_str flight)%string).
Proof. reflexivity. Qed.

Lemma output_string_well_shaped (e : entry) :
  well_shaped e -> exists line, output_string py e = Ok (VStr line).
Proof.
  intros [(f & ->) | (dist & fd & h & -> & _)].
  - eexists. apply output_string_error_record.
  - eexists. reflexivity.
Qed.

Lemma output_strings_of_well_shaped (aircraft_data : list entry) :
  Forall well_shaped aircraft_data ->
  exists lines,
    output_strings_of py aircraft_data = Ok (map VStr lines)
    /\ Forall2 (fun e line => output_string py e = Ok (VStr line))
         aircraft_data lines.
Proof.
  induction 1 as [| e rest He _ IH].
  - exists []. split; [reflexivity | constructor].
  - destruct (output_string_well_shaped e He) as (line & Hline).
    destruct IH as (lines & Hlines & Hall).
    exists (line :: lines). cbn [output_strings_of map].
    rewrite Hline. cbn [bind]. rewrite Hlines. cbn [bind].
    split; [reflexivity | constructor; assumption].
Qed.

Lemma listing_response (request : Request)
  (longitude latitude altitude : R) (flights : list Flight)
  (aircraft_data : list entry) :
  validate_location_params py request = Ok (longitude, latitude, altitude) ->
  get_flights_with_distances api latitude longitude altitude 20000
  = Ok aircraft_data ->
  Forall2 (ranked_as api latitude longitude altitude) flights aircraft_data ->
  exists lines listing,
    Forall2 (fun e line => output_string py e = Ok (VStr line))
      (list_sort item0 aircraft_data) lines
    /\ str_join nl (map VStr lines) = Ok listing
    /\ get_aircraft py api request
       = ((listing ++ prompt)%string, 200%Z, text_plain).
Proof.
  intros Hvalid Hget Hall.
  assert (Hshape0 : Forall well_shaped aircraft_data).
  { eapply Forall2_Forall_r; [| exact Hall]. apply ranked_as_well_shaped. }
  assert (Hshape : Forall well_shaped (list_sort item0 aircraft_data)).
  { rewrite Forall_forall in *. intros e He. apply Hshape0.
    apply (Permutation_in _ (Permutation_sym (list_sort_perm item0 _))).
    exact He. }
  destruct (output_strings_of_well_shaped _ Hshape) as (lines & Hlines & Hrender).
  destruct (str_join_strings nl lines) as (listing & Hjoin).
  exists lines, listing. split; [exact Hrender |]. split; [exact Hjoin |].
  unfold get_aircraft, ranked_aircraft. rewrite Hvalid. cbn [bind].
  rewrite Hget. cbn [bind]. rewrite Hlines. cbn [bind]. rewrite Hjoin.
  reflexivity.
Qed.

(** X18: on [/] with valid parameters, whenever the gateway answers and
    the fetch returns, the response is status 200, plain text; its body is
    the lines of the ranked entries, in ranked order, joined by newlines
    and followed directly by the instructional text; there is one line per
    flight, and every flight whose detail fetch failed appears as the line
    [Error processing flight ] followed by the flight's text. *)
Theorem listing_renders_every_flight (request : Request)
  (longitude latitude altitude : R) (flights : list Flight)
  (aircraft_data : list entry) :
  validate_location_params py request = Ok (longitude, latitude, altitude) ->
  gateway_answers api latitude longitude 20000 flights ->
  get_flights_with_distances api latitude longitude altitude 20000
  = Ok aircraft_data ->
  exists lines listing,
    ranked_aircraft api latitude longitude altitude
    = Ok (list_sort item0 aircraft_data)
    /\ Forall2 (fun e line => output_string py e = Ok (VStr line))
         (list_sort item0 aircraft_data) lines
    /\ List.length lines = List.length flights
    /\ str_join nl (map VStr lines) = Ok listing
    /\ get_aircraft py api request
       = ((listing ++ prompt)%string, 200%Z, [("Content-Type", "text/plain")]%string)
    /\ forall flight,
         In flight flights -> details_fail api flight ->
         In ("Error processing flight " ++ flight_str flight)%string lines.
Proof.
  intros Hvalid Hgw Hget.
  pose proof (get_flights_with_distances_spec api _ _ _ _ _ _ Hgw Hget) as Hall.
  destruct (listing_response request _ _ _ flights aircraft_data Hvalid Hget Hall)
    as (lines & listing & Hrender & Hjoin & Hresp).
  exists lines, listing.
  split; [unfold ranked_aircraft; rewrite Hget; reflexivity |].
  split; [exact Hrender |]. split.
  { rewrite <- (Forall2_length Hrender), (Forall2_length Hall).
    symmetry. apply Permutation_length. apply list_sort_perm. }
  split; [exact Hjoin |]. split; [exact Hresp |].
  intros f Hin Hfail.
  destruct (Forall2_In_l _ _ _ _ Hall Hin) as (e & He & Hfe).
  apply ranked_as_shape in Hfe.
  rewrite (get_flight_data_fail api f Hfail) in Hfe.
  destruct Hfe as [[_ ->] | (fd & dist & h & Hfd & _)]; [| discriminate Hfd].
  apply (Permutation_in _ (list_sort_perm item0 aircraft_data)) in He.
  destruct (Forall2_In_l _ _ _ _ Hrender He) as (line & Hline & Hout).
  rewrite output_string_error_record in Hout. injection Hout as <-.
  exact Hline.
Qed.

(** The response of [/closest] for fetched entries of the two shapes. *)
Lemma closest_of_well_shaped (request : Request)
  (longitude latitude altitude : R) (aircraft_data : list entry) :
  validate_location_params py request = Ok (longitude, latitude, altitude) ->
  get_flights_with_distances api latitude longitude altitude 10000
  = Ok aircraft_data ->
  Forall well_shaped aircraft_data ->
  (filter is_resolved aircraft_data = []
   /\ get_closest_aircraft py api request = (not_found_msg, 200%Z, text_plain))
  \/ (exists dist fd,
        first_minimum fst (dist, VDict fd)
          (map dist_and_data (filter is_resolved aircraft_data))
        /\ get_closest_aircraft py api request
           = ((flight_data.airline fd ++ " " ++ flight_data.aircraft_type fd
               ++ " departing from " ++ flight_data.source fd
               ++ " to " ++ flight_data.destination fd ++ ".")%string,
              200%Z, text_plain)).
Proof.
  intros Hvalid Hget Hshape.
  rewrite (get_closest_aircraft_fetched py api request _ _ _ _ Hvalid Hget).
  rewrite valid_aircraft_of_resolved.
  destruct (filter is_resolved aircraft_data) as [| e rest] eqn:Hres.
  - left. split; reflexivity.
  - right. cbn [map].
    destruct (list_sort_head_first_minimum fst (dist_and_data e)
                (map dist_and_data rest)) as (m & tl & Hsort & Hmin).
    rewrite Hsort.
    assert (Hm : In m (map dist_and_data (e :: rest))).
    { destruct Hmin as (pre & post & Hl & _). cbn [map]. rewrite Hl.
      apply in_or_app. right. left. reflexivity. }
    rewrite <- Hres in Hm. apply in_map_iff in Hm as (e0 & <- & He0).
    apply filter_In in He0 as [He0 Hres0].
    rewrite Forall_forall in Hshape.
    destruct (Hshape e0 He0) as [(f & ->) | (dist & fd & h & -> & _)];
      [discriminate Hres0 |].
    exists dist, fd. split; [exact Hmin | reflexivity].
Qed.

(** X19: on [/closest] with valid parameters, whenever the gateway
    answers, the fetch returns and at least one detail fetch succeeded, the
    response is status 200 with the sentence of the nearest resolved
    flight; among several flights at the least distance the one listed
    first by the gateway is chosen. *)
Theorem closest_is_first_nearest (request : Request)
  (longitude latitude altitude : R) (flights : list Flight)
  (aircraft_data : list entry) :
  validate_location_params py request = Ok (longitude, latitude, altitude) ->
  gateway_answers api latitude longitude 10000 flights ->
  Exists (fun flight => exists flight', details_succeed api flight flight') flights ->
  get_flights_with_distances api latitude longitude altitude 10000
  = Ok aircraft_data ->
  exists dist fd,
    first_minimum fst (dist, VDict fd)
      (map dist_and_data (filter is_resolved aircraft_data))
    /\ get_closest_aircraft py api request
       = ((flight_data.airline fd ++ " " ++ flight_data.aircraft_type fd
           ++ " departing from " ++ flight_data.source fd
           ++ " to " ++ flight_data.destination fd ++ ".")%string,
          200%Z, [("Content-Type", "text/plain")]%string).
Proof.
  intros Hvalid Hgw Hsome Hget.
  pose proof (get_flights_with_distances_spec api _ _ _ _ _ _ Hgw Hget) as Hall.
  assert (Hshape : Forall well_shaped aircraft_data).
  { eapply Forall2_Forall_r; [| exact Hall].
    apply ranked_as_well_shaped. }
  destruct (closest_of_well_shaped request _ _ _ aircraft_data Hvalid Hget Hshape)
    as [[Hnone _] | (dist & fd & Hmin & Hresp)].
  - exfalso. apply Exists_exists in Hsome as (f & Hin & f' & Hok).
    destruct (Forall2_In_l _ _ _ _ Hall Hin) as (e & He & Hfe).
    apply ranked_as_shape in Hfe.
    rewrite (get_flight_data_succeed api _ _ Hok) in Hfe.
    destruct Hfe as [[Hfd _] | (fd & dist & h & _ & -> & _)]; [discriminate Hfd |].
    assert (Hin' : In (dist, VDict fd, VFloat h) (filter is_resolved aircraft_data)).
    { apply filter_In. split; [exact He | reflexivity]. }
    rewrite Hnone in Hin'. destruct Hin'.
  - exists dist, fd. split; [exact Hmin | exact Hresp].
Qed.

(** X20: the four outcomes of each route, for parameters that parse to
    finite numbers.  The status is 400 exactly for invalid parameters; 500
    when the parameters are valid and the gateway raises; 500, with the
    body [Error: Error fetching flight data: math range error], when the
    gateway answers and the distance of a resolved flight overflows; and
    200 when the gateway answers and no distance overflows, whatever the
    flights are. *)
Theorem handler_status_outcomes (request : Request) :
  ((invalid_location_params py request
    /\ status (get_aircraft py api request) = 400%Z)
   \/ (exists longitude latitude altitude,
         validate_location_params py request = Ok (longitude, latitude, altitude)
         /\ ((exists e, gateway_raises api latitude longitude 20000 e)
             /\ status (get_aircraft py api request) = 500%Z
             \/ (exists flights,
                   gateway_answers api latitude longitude 20000 flights
                   /\ ~ no_overflow api latitude longitude altitude flights)
                /\ get_aircraft py api request
                   = ("Error: Error fetching flight data: math range error"%string,
                      500%Z, [])
             \/ (exists flights,
                   gateway_answers api latitude longitude 20000 flights
                   /\ no_overflow api latitude longitude altitude flights)
                /\ status (get_aircraft py api request) = 200%Z)))
  /\ ((invalid_location_params py request
       /\ status (get_closest_aircraft py api request) = 400%Z)
      \/ (exists longitude latitude altitude,
            validate_location_params py request = Ok (longitude, latitude, altitude)
            /\ ((exists e, gateway_raises api latitude longitude 10000 e)
                /\ status (get_closest_aircraft py api request) = 500%Z
                \/ (exists flights,
                      gateway_answers api latitude longitude 10000 flights
                      /\ ~ no_overflow api latitude longitude altitude flights)
                   /\ get_closest_aircraft py api request
                      = ("Error: Error fetching flight data: math range error"%string,
                         500%Z, [])
                \/ (exists flights,
                      gateway_answers api latitude longitude 10000 flights
                      /\ no_overflow api latitude longitude altitude flights)
                   /\ status (get_closest_aircraft py api request) = 200%Z))).
Proof.
  destruct (validate_cases py request)
    as [(lon & lat & alt & Hvalid & _) | [Hraise Hinv]].
  2:{ split; left; (split; [exact Hinv |]);
        unfold get_aircraft, get_closest_aircraft; rewrite Hraise; reflexivity. }
  destruct (handlers_fetch_raised py api request _ _ _ overflow_exn Hvalid)
    as [Hlist_over Hclosest_over].
  split; right; exists lon, lat, alt; (split; [exact Hvalid |]).
  - destruct (get_flights_with_distances_cases api lat lon alt 20000)
      as [(flights & es & Hgw & Hget & Hall)
         | [(e & Hgw & Hget) | (flights & Hgw & Hover & Hget)]].
    + right. right.
      split; [exists flights; split;
                [exact Hgw | exact (returns_no_overflow api _ _ _ _ _ Hall)] |].
      destruct (listing_response request lon lat alt flights es Hvalid Hget Hall)
        as (lines & listing & _ & _ & Hresp).
      rewrite Hresp. reflexivity.
    + left. split; [exists e; exact Hgw |].
      destruct (handlers_fetch_raised py api request _ _ _ e Hvalid) as [Hlist _].
      rewrite (Hlist Hget). reflexivity.
    + right. left. split; [exists flights; split; assumption |].
      apply Hlist_over. exact Hget.
  - destruct (get_flights_with_distances_cases api lat lon alt 10000)
      as [(flights & es & Hgw & Hget & Hall)
         | [(e & Hgw & Hget) | (flights & Hgw & Hover & Hget)]].
    + right. right.
      split; [exists flights; split;
                [exact Hgw | exact (returns_no_overflow api _ _ _ _ _ Hall)] |].
      assert (Hshape : Forall well_shaped es).
      { eapply Forall2_Forall_r; [| exact Hall]. apply ranked_as_well_shaped. }
      destruct (closest_of_well_shaped request _ _ _ es Hvalid Hget Hshape)
        as [[_ Hresp] | (dist & fd & _ & Hresp)]; rewrite Hresp; reflexivity.
    + left. split; [exists e; exact Hgw |].
      destruct (handlers_fetch_raised py api request _ _ _ e Hvalid) as [_ Hclosest].
      rewrite (Hclosest Hget). reflexivity.
    + right. left. split; [exists flights; split; assumption |].
      apply Hclosest_over. exact Hget.
Qed.

End Rendering.

(** ** The further properties at work on concrete inputs *)

Lemma distance_of_square (x1 y1 z1 x2 y2 z2 d : R) :
  0 <= d ->
  (x2 - x1) ^ 2 + (y2 - y1) ^ 2 + (z2 - z1) ^ 2 = d ^ 2 ->
  d ^ 2 <= float_max ->
  distance x1 y1 z1 x2 y2 z2 = Ok (Finite d).
Proof.
  intros Hd Hsum Hfits.
  rewrite distance_finite by (rewrite Hsum; exact Hfits).
  rewrite Hsum. do 2 f_equal.
  replace (d ^ 2) with (d * d) by ring. apply sqrt_square. exact Hd.
Qed.

Lemma distance_zero_iff_same_point_witness :
  distance 1 2 3 1 2 3 = Ok (Finite 0)
  /\ distance 0 0 0 3 4 0 <> Ok (Finite 0).
Proof.
  split.
  - apply (proj2 (distance_zero_iff_same_point 1 2 3 1 2 3)).
    repeat split; reflexivity.
  - intros H. apply (proj1 (distance_zero_iff_same_point 0 0 0 3 4 0)) in H.
    destruct H as [H _]. lra.
Defined.

Lemma distance_triangle_witness :
  distance 0 0 0 3 4 0 = Ok (Finite 5)
  /\ distance 3 4 0 3 4 12 = Ok (Finite 12)
  /\ distance 0 0 0 3 4 12 = Ok (Finite 13)
  /\ 13 <= 5 + 12.
Proof.
  pose proof float_max_bounds as [Hmax _].
  assert (H12 : distance 0 0 0 3 4 0 = Ok (Finite 5))
    by (apply distance_of_square; lra).
  assert (H23 : distance 3 4 0 3 4 12 = Ok (Finite 12))
    by (apply distance_of_square; lra).
  assert (H13 : distance 0 0 0 3 4 12 = Ok (Finite 13))
    by (apply distance_of_square; lra).
  repeat (split; [assumption |]).
  exact (distance_triangle 0 0 0 3 4 0 3 4 12 5 12 13 H12 H23 H13).
Defined.

Lemma altitude_difference_is_distance_witness :
  exists x1 y1 z1 x2 y2 z2,
    pointToCartesian (-0.1) 51.5 0 = Ok (x1, y1, z1)
    /\ pointToCartesian (-0.1) 51.5 35000 = Ok (x2, y2, z2)
    /\ distance x1 y1 z1 x2 y2 z2 = Ok (Finite (Rabs (35000 - 0) * 0.3048)).
Proof.
  apply (altitude_difference_is_distance (-0.1) 51.5 0 35000).
  pose proof float_max_bounds as [Hmax _]. lra.
Defined.

Lemma bearing_along_meridian_witness :
  calculate_heading_to_aircraft 51.5 (-0.1) 52 (-0.1) = Ok 0
  /\ calculate_heading_to_aircraft 51.5 (-0.1) 50 (-0.1) = Ok 180.
Proof.
  split.
  - rewrite (bearing_along_meridian 51.5 (-0.1) 52) by lra.
    destruct (Rlt_dec 51.5 52) as [_ | H]; [reflexivity | lra].
  - rewrite (bearing_along_meridian 51.5 (-0.1) 50) by lra.
    destruct (Rlt_dec 51.5 50) as [H | _]; [lra | reflexivity].
Defined.

Lemma bearing_along_equator_witness :
  calculate_heading_to_aircraft 0 10 0 20 = Ok 90
  /\ calculate_heading_to_aircraft 0 10 0 (-5) = Ok 270.
Proof.
  split.
  - rewrite (bearing_along_equator 10 20) by lra.
    destruct (Rlt_dec 10 20) as [_ | H]; [reflexivity | lra].
  - rewrite (bearing_along_equator 10 (-5)) by lra.
    destruct (Rlt_dec 10 (-5)) as [H | _]; [lra | reflexivity].
Defined.


Lemma missing_position_is_origin_witness :
  exists aircraft_data user_x user_y user_z dist fd h,
    get_flights_with_distances (Demo.api_with [Demo.unresolved; Lost.flight])
      51.5 (-0.1) 0 20000 = Ok aircraft_data
    /\ pointToCartesian (-0.1) 51.5 0 = Ok (user_x, user_y, user_z)
    /\ distance user_x user_y user_z 6378137 0 0 = Ok dist
    /\ calculate_heading_to_aircraft 51.5 (-0.1) 0 0 = Ok h
    /\ In (dist, VDict fd, VFloat h) aircraft_data.
Proof.
  destruct (demo_world_returns [Demo.unresolved; Lost.flight] 51.5 (-0.1) 0 20000
              Rabs_0_small lost_world_bounded) as (ad & Hget & _).
  destruct (missing_position_is_origin
              (Demo.api_with [Demo.unresolved; Lost.flight])
              51.5 (-0.1) 0 20000 [Demo.unresolved; Lost.flight]
              Lost.flight Lost.flight ad)
    as (ux & uy & uz & dist & fd & h & Hu & Hd & Hh & Hin).
  - apply demo_gateway_answers.
  - right. left. reflexivity.
  - exists tt. split; reflexivity.
  - reflexivity.
  - reflexivity.
  - reflexivity.
  - exact Hget.
  - exists ad, ux, uy, uz, dist, fd, h. repeat split; assumption.
Defined.



Lemma fetch_raises_only_wrapped_witness :
  ((exists e0,
      gateway_raises Outage.api 51.5 (-0.1) 20000 e0
      /\ mk_exn Exception "Error fetching flight data: bad gateway"
         = mk_exn Exception ("Error fetching flight data: " ++ exn_msg e0)%string)
   \/ (exists flights flight fd,
         gateway_answers Outage.api 51.5 (-0.1) 20000 flights
         /\ In flight flights
         /\ get_flight_data Outage.api flight = Some fd
         /\ distance_overflows 51.5 (-0.1) 0 fd
         /\ mk_exn Exception "Error fetching flight data: bad gateway"
            = mk_exn Exception "Error fetching flight data: math range error"))
  /\ ((exists e0,
         gateway_raises (Demo.api_with [High.flight]) 0 0 20000 e0
         /\ mk_exn Exception "Error fetching flight data: math range error"
            = mk_exn Exception ("Error fetching flight data: " ++ exn_msg e0)%string)
      \/ (exists flights flight fd,
            gateway_answers (Demo.api_with [High.flight]) 0 0 20000 flights
            /\ In flight flights
            /\ get_flight_data (Demo.api_with [High.flight]) flight = Some fd
            /\ distance_overflows 0 0 0 fd
            /\ mk_exn Exception "Error fetching flight data: math range error"
               = mk_exn Exception "Error fetching flight data: math range error")).
Proof.
  split.
  - apply (fetch_raises_only_wrapped Outage.api 51.5 (-0.1) 0 20000).
    apply (get_flights_with_distances_raise Outage.api 51.5 (-0.1) 0 20000
             (mk_exn ValueError "bad gateway")).
    right. exists tt. split; reflexivity.
  - apply (fetch_raises_only_wrapped (Demo.api_with [High.flight]) 0 0 0 20000).
    apply high_flight_fetch_raises.
Defined.

Lemma gateway_failure_gives_500_witness :
  get_aircraft Demo.py Outage.api Demo.request
  = ("Error: Error fetching flight data: bad gateway"%string, 500%Z, [])
  /\ get_closest_aircraft Demo.py Outage.api Demo.request
     = ("Error: Error fetching flight data: bad gateway"%string, 500%Z, []).
Proof.
  destruct (gateway_failure_gives_500 Demo.py Outage.api Demo.request
              (-0.1) 51.5 0 (mk_exn ValueError "bad gateway") eq_refl)
    as [Hlist Hclosest].
  split.
  - apply Hlist. right. exists tt. split; reflexivity.
  - apply Hclosest. right. exists tt. split; reflexivity.
Defined.

Lemma validate_location_params_outcomes_witness :
  validate_location_params Demo.py Demo.request = Ok (-0.1, 51.5, 0)
  /\ invalid_location_params Demo.py Demo.bad_request.
Proof.
  split.
  - apply (proj1 (validate_location_params_outcomes Demo.py Demo.request)).
    split; [reflexivity |]. split; [reflexivity |].
    left. split; reflexivity.
  - apply (proj2 (validate_location_params_outcomes Demo.py Demo.bad_request)
             (mk_exn ValueError "Invalid longitude, latitude, or altitude values")).
    reflexivity.
Defined.

Lemma listing_renders_every_flight_witness :
  exists aircraft_data lines listing,
    get_flights_with_distances Demo.api 51.5 (-0.1) 0 20000 = Ok aircraft_data
    /\ Forall2 (fun e line => output_string Demo.py e = Ok (VStr line))
         (list_sort item0 aircraft_data) lines
    /\ List.length lines = 2%nat
    /\ str_join nl (map VStr lines) = Ok listing
    /\ get_aircraft Demo.py Demo.api Demo.request
       = ((listing ++ prompt)%string, 200%Z, [("Content-Type", "text/plain")]%string)
    /\ In "Error processing flight <N/A>"%string lines.
Proof.
  destruct (demo_returns 51.5 (-0.1) 0 20000 Rabs_0_small) as (ad & Hget & _).
  destruct (listing_renders_every_flight Demo.py Demo.api Demo.request
              (-0.1) 51.5 0 [Demo.unresolved; Demo.heathrow_777] ad eq_refl
              (demo_gateway_answers _ _ _ _) Hget)
    as (lines & listing & Hranked & Hrender & Hlen & Hjoin & Hresp & Herr).
  exists ad, lines, listing.
  repeat (split; [assumption |]).
  apply (Herr Demo.unresolved).
  - left. reflexivity.
  - apply demo_unresolved_fails.
Defined.

Lemma closest_is_first_nearest_witness :
  get_closest_aircraft Demo.py Demo.api Demo.request
  = ("British Airways Boeing 777-336(ER) departing from London Heathrow to Unknown."%string,
     200%Z, [("Content-Type", "text/plain")]%string).
Proof.
  destruct (demo_returns 51.5 (-0.1) 0 10000 Rabs_0_small) as (ad & Hget & Hall).
  destruct (closest_is_first_nearest Demo.py Demo.api Demo.request
              (-0.1) 51.5 0 [Demo.unresolved; Demo.heathrow_777] ad eq_refl
              (demo_gateway_answers _ _ _ _))
    as (dist & fd & Hmin & Hresp).
  { right. left. exists Demo.heathrow_777, tt. split; reflexivity. }
  { exact Hget. }
  rewrite Hresp.
  inversion Hall as [| ? e1 ? es1 H1 Hall1]; subst.
  inversion Hall1 as [| ? e2 ? es2 H2 Hall2]; subst.
  inversion Hall2; subst.
  apply ranked_as_shape in H1. apply ranked_as_shape in H2.
  unfold Demo.api in H1, H2.
  rewrite demo_unresolved_data in H1. rewrite demo_heathrow_data in H2.
  destruct H1 as [[_ ->] | (fd1 & d1 & h1 & Hfd1 & _)]; [| discriminate Hfd1].
  destruct H2 as [[Hfd2 _] | (fd2 & d2 & h2 & Hfd2 & -> & _)]; [discriminate Hfd2 |].
  injection Hfd2 as <-.
  destruct Hmin as (pre & post & Hl & _).
  cbn in Hl.
  destruct pre as [| p pre].
  - injection Hl as _ <- _. reflexivity.
  - destruct pre; discriminate Hl.
Defined.
